(** * GCP-Bucket-Loader: a shallow embedding of the two command-line tools

    The repository holds two programs: the upload-only tool
    (GCP-Bucket-Uploader v1.0, [main.go]) and the dual-direction tool
    (GCP-Bucket-Loader v2.1).  Both are sequential wrappers around the
    operating system and the storage SDK.  The embedding is an
    event-emitting state-and-exit monad: every call to the outside world
    leaves an event in the trace, [log.Fatalln] ends the process with
    [os.Exit(1)], and a deferred call runs only when its function
    returns. *)

From Stdlib Require Import ZArith Lia Bool.
From stdpp Require Import gmap strings list pretty.

Local Open Scope Z_scope.

(** ** Go runtime and standard library pieces used by the programs *)

(** A Go string is a sequence of bytes; [bytesOf] exposes them. *)
Definition bytesOf (s : string) : list Z :=
  (fun c => Z.of_N (Ascii.N_of_ascii c)) <$> String.list_ascii_of_string s.

(** Two's complement conversion to [int64] (also Go's 64-bit [int]). *)
Definition wrap64 (z : Z) : Z := (z + 2 ^ 63) mod 2 ^ 64 - 2 ^ 63.

(** [strconv.FormatInt(n, 10)] and [strconv.FormatUint(n, 10)]. *)
Definition FormatInt (n : Z) : string := pretty n.

Module utf8.

Definition RuneError : Z := 0xFFFD.
Definition RuneSelf : Z := 0x80.

Definition maskx : Z := 0x3F.
Definition mask2 : Z := 0x1F.
Definition mask3 : Z := 0x0F.
Definition mask4 : Z := 0x07.
Definition locb : Z := 0x80.
Definition hicb : Z := 0xBF.

Definition xx : Z := 0xF1.
Definition as_ : Z := 0xF0.
Definition s1 : Z := 0x02.
Definition s2 : Z := 0x13.
Definition s3 : Z := 0x03.
Definition s4 : Z := 0x23.
Definition s5 : Z := 0x34.
Definition s6 : Z := 0x04.
Definition s7 : Z := 0x44.

(** The table [first], indexed by the leading byte. *)
Definition first (b : Z) : Z :=
  if b <? 0x80 then as_
  else if b <? 0xC2 then xx
  else if b <? 0xE0 then s1
  else if b =? 0xE0 then s2
  else if b <? 0xED then s3
  else if b =? 0xED then s4
  else if b <? 0xF0 then s3
  else if b =? 0xF0 then s5
  else if b <? 0xF4 then s6
  else if b =? 0xF4 then s7
  else xx.

(** The table [acceptRanges]: bounds of the second byte. *)
Definition acceptRanges (i : Z) : Z * Z :=
  if i =? 0 then (locb, hicb)
  else if i =? 1 then (0xA0, hicb)
  else if i =? 2 then (locb, 0x9F)
  else if i =? 3 then (0x90, hicb)
  else if i =? 4 then (locb, 0x8F)
  else (0, 0).

Definition DecodeRuneInString (s : list Z) : Z * nat :=
  match s with
  | [] => (RuneError, 0%nat)
  | c0 :: rest =>
    let x := first c0 in
    if as_ <=? x then
      (* mask := rune(x) << 31 >> 31: all ones exactly when x is odd *)
      (if Z.testbit x 0 then RuneError else c0, 1%nat)
    else
      let sz := Z.to_nat (Z.land x 7) in
      let '(lo, hi) := acceptRanges (Z.shiftr x 4) in
      if (length s <? sz)%nat then (RuneError, 1%nat)
      else match rest with
      | [] => (RuneError, 1%nat)
      | c1 :: rest1 =>
        if (c1 <? lo) || (hi <? c1) then (RuneError, 1%nat)
        else if (sz <=? 2)%nat then
          (Z.lor (Z.shiftl (Z.land c0 mask2) 6) (Z.land c1 maskx), 2%nat)
        else match rest1 with
        | [] => (RuneError, 1%nat)
        | c2 :: rest2 =>
          if (c2 <? locb) || (hicb <? c2) then (RuneError, 1%nat)
          else if (sz <=? 3)%nat then
            (Z.lor (Z.lor (Z.shiftl (Z.land c0 mask3) 12)
                          (Z.shiftl (Z.land c1 maskx) 6))
                   (Z.land c2 maskx), 3%nat)
          else match rest2 with
          | [] => (RuneError, 1%nat)
          | c3 :: _ =>
            if (c3 <? locb) || (hicb <? c3) then (RuneError, 1%nat)
            else
              (Z.lor (Z.lor (Z.lor (Z.shiftl (Z.land c0 mask4) 18)
                                   (Z.shiftl (Z.land c1 maskx) 12))
                            (Z.shiftl (Z.land c2 maskx) 6))
                     (Z.land c3 maskx), 4%nat)
          end
        end
      end
  end.

End utf8.

Module unicode.

(** [unicode.SimpleFold] on the orbits that contain an ASCII rune:
    the 26 letter pairs, with the Kelvin sign U+212A in the orbit of
    [k] and the long s U+017F in the orbit of [s].  Orbits made of
    non-ASCII runes only are left as the identity: [EqualFold] never
    consults them when one of its arguments is an ASCII string, which
    is how both programs call it. *)
Definition SimpleFold (r : Z) : Z :=
  if r =? 0x4B then 0x6B
  else if r =? 0x6B then 0x212A
  else if r =? 0x212A then 0x4B
  else if r =? 0x53 then 0x73
  else if r =? 0x73 then 0x17F
  else if r =? 0x17F then 0x53
  else if (0x41 <=? r) && (r <=? 0x5A) then r + 0x20
  else if (0x61 <=? r) && (r <=? 0x7A) then r - 0x20
  else r.

End unicode.

Module gostrings.

(** The ASCII comparison shared by both loops of [EqualFold]:
    after ordering the pair, [sr] must be upper case and [tr] its
    lower case. *)
Definition asciiPair (sr tr : Z) : bool :=
  let '(sr, tr) := if tr <? sr then (tr, sr) else (sr, tr) in
  (0x41 <=? sr) && (sr <=? 0x5A) && (tr =? sr + 0x61 - 0x41).

(** [for r != sr && r < tr { r = unicode.SimpleFold(r) }] *)
Fixpoint foldUpTo (fuel : nat) (sr tr r : Z) : Z :=
  match fuel with
  | O => r
  | S fuel' =>
    if negb (r =? sr) && (r <? tr)
    then foldUpTo fuel' sr tr (unicode.SimpleFold r)
    else r
  end.

(** The loop after the label [hasUnicode]; [fuel] bounds the number
    of runes of [s]. *)
Fixpoint equalFoldUnicode (fuel : nat) (s t : list Z) : bool :=
  match fuel with
  | O => false
  | S fuel' =>
    match s with
    | [] => (length t =? 0)%nat
    | _ :: _ =>
      let '(sr, size) := utf8.DecodeRuneInString s in
      match t with
      | [] => false
      | t0 :: trest =>
        let '(tr, t') :=
          if t0 <? utf8.RuneSelf then (t0, trest)
          else let '(r, sz) := utf8.DecodeRuneInString t in (r, drop sz t) in
        let continue := equalFoldUnicode fuel' (drop size s) t' in
        if tr =? sr then continue
        else
          let '(sr, tr) := if tr <? sr then (tr, sr) else (sr, tr) in
          if tr <? utf8.RuneSelf then
            (if (0x41 <=? sr) && (sr <=? 0x5A) && (tr =? sr + 0x61 - 0x41)
             then continue else false)
          else
            let r := foldUpTo 4 sr tr (unicode.SimpleFold sr) in
            if r =? tr then continue else false
      end
    end
  end.

(** The ASCII fast path; it hands the remaining suffixes over to the
    Unicode loop at the first byte outside ASCII. *)
Fixpoint equalFoldBytes (s t : list Z) : bool :=
  match s, t with
  | sr :: s', tr :: t' =>
    if utf8.RuneSelf <=? Z.lor sr tr
    then equalFoldUnicode (S (length s)) s t
    else if tr =? sr then equalFoldBytes s' t'
    else if asciiPair sr tr then equalFoldBytes s' t'
    else false
  | [], [] => true
  | _, _ => false
  end.

Definition EqualFold (s t : string) : bool :=
  equalFoldBytes (bytesOf s) (bytesOf t).

End gostrings.

Module gotime.

(** [time.Duration] is an [int64] count of nanoseconds. *)
Definition Second : Z := 1000000000.

(** Multiplication of two durations, in [int64]. *)
Definition mul (a b : Z) : Z := wrap64 (a * b).

End gotime.


(** ** Events, outcomes and the process monad *)

Inductive channel := LogErr | LogWarn | LogInfo | LogAlways.

(** [option.ClientOption], as far as the programs build one. *)
Inductive clientOption :=
| WithoutAuthentication
| WithCredentialsFile (keyPath : string).

(** Go [error] values: the two sentinels the programs compare against,
    and every other error with its text. *)
Inductive error :=
| ErrBucketNotExist
| ErrObjectNotExist
| ErrOther (msg : string).

#[global] Instance error_eq_dec : EqDecision error.
Proof. solve_decision. Defined.

Definition Error (err : error) : string :=
  match err with
  | ErrBucketNotExist => "storage: bucket doesn't exist"
  | ErrObjectNotExist => "storage: object doesn't exist"
  | ErrOther msg => msg
  end.

(** What the process does to the outside world, in order. *)
Inductive event :=
| ELog (c : channel) (msg : string)
| EWithTimeout (d : Z)
| ECancel
| ENewClient (o : clientOption)
| EClientClose
| EStat (path : string)
| EOpen (path : string)
| ECreate (path : string)
| EFileClose (path : string)
| EBucketAttrs (bucket : string)
| EObjectAttrs (bucket object : string)
| ENewWriter (bucket object : string)
| EWrite (contentType : string) (n : Z)
| EWriterClose
| ENewReader (bucket object : string)
| ERead (path : string) (n : Z)
| EReaderClose.

(** A local path holds a regular file with its bytes, or something else
    (a directory, a device). *)
Inductive node :=
| Regular (data : list Z)
| Irregular.

(** [storage.ObjectAttrs], the fields that are read. *)
Record ObjectAttrs := {
  Size : Z;
  CRC32C : Z;
  Generation : Z
}.

Record object := {
  objData : list Z;
  objContentType : string;
  objAttrs : ObjectAttrs
}.

(** The heap object behind a [*storage.Writer]. *)
Record Writer := {
  wBucket : string;
  wObject : string;
  wContentType : string;
  wData : list Z;
  wClosed : bool
}.

(** The failures the environment may inject into a call that would
    otherwise succeed ([None]: no failure), and the values only the
    environment knows. *)
Record environment := {
  clientErr : clientOption -> option string;
  openErr : string -> option string;
  createErr : string -> option string;
  bucketAttrsErr : option string;
  objectAttrsErr : option string;
  objectAttrsAfterErr : option string;
  copyErr : option (nat * string);
  writerCloseErr : option string;
  newReaderErr : option string;
  readerCloseErr : option string;
  crc32c : list Z -> Z;
  detectContentType : list Z -> string;
  noBucketErr : string;
  nextGeneration : Z;
  elapsed : string
}.

Record world := {
  env : environment;
  files : gmap string node;
  buckets : gset string;
  objects : gmap (string * string) object;
  writer : option Writer
}.

Definition setFiles (f : gmap string node) (w : world) : world :=
  {| env := env w; files := f; buckets := buckets w;
     objects := objects w; writer := writer w |}.

Definition setObjects (o : gmap (string * string) object) (w : world) : world :=
  {| env := env w; files := files w; buckets := buckets w;
     objects := o; writer := writer w |}.

Definition setWriter (wr : option Writer) (w : world) : world :=
  {| env := env w; files := files w; buckets := buckets w;
     objects := objects w; writer := wr |}.

(** A computation returns to its caller or ends the process. *)
Inductive outcome (A : Type) :=
| Ret (a : A)
| Exit (code : Z).
Arguments Ret {A} a.
Arguments Exit {A} code.

Definition M (A : Type) : Type := world -> list event * world * outcome A.

Definition ret {A} (a : A) : M A := fun w => ([], w, Ret a).

Definition bind {A B} (m : M A) (k : A -> M B) : M B :=
  fun w =>
    let '(t1, w1, r) := m w in
    match r with
    | Ret a => let '(t2, w2, r2) := k a w1 in (t1 ++ t2, w2, r2)
    | Exit c => (t1, w1, Exit c)
    end.

#[global] Instance M_ret : MRet M := @ret.
#[global] Instance M_bind : MBind M := fun A B k m => bind m k.

Definition emit (e : event) : M unit := fun w => ([e], w, Ret tt).
Definition get : M world := fun w => ([], w, Ret w).
Definition modify (f : world -> world) : M unit := fun w => ([], f w, Ret tt).

(** [os.Exit(code)]: the process ends here; no deferred call runs. *)
Definition osExit {A} (code : Z) : M A := fun w => ([], w, Exit code).

(** [defer d; body]: [d] runs when [body] returns, and not when the
    process exits inside [body]. *)
Definition defer {A} (d : M unit) (body : M A) : M A :=
  fun w =>
    let '(t1, w1, r) := body w in
    match r with
    | Ret a =>
      let '(t2, w2, r2) := d w1 in
      (t1 ++ t2, w2, match r2 with Ret _ => Ret a | Exit c => Exit c end)
    | Exit c => (t1, w1, Exit c)
    end.

Definition Println (c : channel) (msg : string) : M unit := emit (ELog c msg).

(** [log.Fatalln]: print, then [os.Exit(1)]. *)
Definition Fatalln {A} (msg : string) : M A :=
  emit (ELog LogErr msg);; osExit 1.

(** ** The operating system: [os] and [io] *)

Module os.

Record FileInfo := {
  IsRegular : bool;
  fileSize : Z
}.

(** [os.Stat]: [None] stands for a non-nil error. *)
Definition Stat (path : string) : M (option FileInfo) :=
  emit (EStat path);;
  w ← get;
  ret (match files w !! path with
       | Some (Regular d) =>
         Some {| IsRegular := true; fileSize := Z.of_nat (length d) |}
       | Some Irregular => Some {| IsRegular := false; fileSize := 0 |}
       | None => None
       end).

(** [os.Open]: a file handle is named by its path. *)
Definition Open (path : string) : M (string + error) :=
  emit (EOpen path);;
  w ← get;
  ret (match files w !! path with
       | None =>
         inr (ErrOther ("open " +:+ path +:+ ": no such file or directory"))
       | Some _ =>
         match openErr (env w) path with
         | Some msg => inr (ErrOther msg)
         | None => inl path
         end
       end).

(** [os.Create]: creates the file or truncates the regular file at
    [path].  What happens to a path that is not a regular file is
    left to the environment. *)
Definition Create (path : string) : M (string + error) :=
  emit (ECreate path);;
  w ← get;
  match createErr (env w) path with
  | Some msg => ret (inr (ErrOther msg))
  | None =>
    modify (fun w => match files w !! path with
                     | Some Irregular => w
                     | _ => setFiles (<[path := Regular []]> (files w)) w
                     end);;
    ret (inl path)
  end.

Definition Close (file : string) : M unit := emit (EFileClose file).

End os.

Module io.

(** The bytes [io.Copy] moves: all of [data], or its first [k] bytes
    together with an error. *)
Definition moved (fault : option (nat * string)) (data : list Z)
  : list Z * option error :=
  match fault with
  | None => (data, None)
  | Some (k, msg) => (take k data, Some (ErrOther msg))
  end.

(** [io.Copy(writer, file)]; a path that holds no regular file
    yields no bytes. *)
Definition CopyToWriter (file : string) : M (Z * option error) :=
  w ← get;
  let data := match files w !! file with
              | Some (Regular d) => d
              | _ => []
              end in
  let '(sent, err) := moved (copyErr (env w)) data in
  let n := Z.of_nat (length sent) in
  emit (EWrite (from_option wContentType "" (writer w)) n);;
  modify (fun w =>
    setWriter ((fun wr => {| wBucket := wBucket wr; wObject := wObject wr;
                             wContentType := wContentType wr;
                             wData := wData wr ++ sent;
                             wClosed := wClosed wr |}) <$> writer w) w);;
  ret (n, err).

(** [io.Copy(file, reader)]: the file was opened at offset 0. *)
Definition CopyToFile (file : string) (reader : list Z)
  : M (Z * option error) :=
  w ← get;
  let '(got, err) := moved (copyErr (env w)) reader in
  let n := Z.of_nat (length got) in
  emit (ERead file n);;
  modify (fun w => match files w !! file with
                   | Some Irregular => w
                   | Some (Regular d) =>
                     setFiles (<[file := Regular (got ++ drop (length got) d)]>
                                 (files w)) w
                   | None => setFiles (<[file := Regular got]> (files w)) w
                   end);;
  ret (n, err).

End io.

(** ** The storage SDK, as the programs use it *)

Module storage.

Definition NewClient (ctx : Z) (o : clientOption) : M (option error) :=
  emit (ENewClient o);;
  w ← get;
  ret (match clientErr (env w) o with
     | Some msg => Some (ErrOther msg)
     | None => None
     end).

Definition ClientClose : M unit := emit EClientClose.

(** [bkt.Attrs(ctx)] *)
Definition BucketAttrs (bucket : string) : M (option error) :=
  emit (EBucketAttrs bucket);;
  w ← get;
  ret (match bucketAttrsErr (env w) with
       | Some msg => Some (ErrOther msg)
       | None =>
         if decide (bucket ∈ buckets w) then None else Some ErrBucketNotExist
       end).

(** [obj.Attrs(ctx)]; [fault] selects the failure injected at this
    call site. *)
Definition Attrs (fault : environment -> option string)
    (bucket object : string) : M (ObjectAttrs + error) :=
  emit (EObjectAttrs bucket object);;
  w ← get;
  ret (match fault (env w) with
       | Some msg => inr (ErrOther msg)
       | None =>
         match objects w !! (bucket, object) with
         | Some o => inl (objAttrs o)
         | None => inr ErrObjectNotExist
         end
       end).

(** [obj.NewWriter(ctx)]: nothing is sent yet. *)
Definition NewWriter (bucket object : string) : M unit :=
  emit (ENewWriter bucket object);;
  modify (setWriter (Some {| wBucket := bucket; wObject := object;
                             wContentType := ""; wData := [];
                             wClosed := false |})).

(** [writer.ContentType = contentType] *)
Definition SetContentType (contentType : string) : M unit :=
  modify (fun w =>
    setWriter ((fun wr => {| wBucket := wBucket wr; wObject := wObject wr;
                             wContentType := contentType;
                             wData := wData wr;
                             wClosed := wClosed wr |}) <$> writer w) w).

(** [writer.Close()]: the first call ends the upload; a later call
    does nothing.  The upload fails when the environment fails it or
    when the bucket does not exist (the service answers with
    [noBucketErr]).  Otherwise the object is stored, under the content
    type set on the writer or, when none was set, under the one the
    upload detects from the bytes. *)
Definition WriterClose : M (option error) :=
  emit EWriterClose;;
  w ← get;
  match writer w with
  | Some wr =>
    if wClosed wr then ret None
    else
      let closed := {| wBucket := wBucket wr; wObject := wObject wr;
                       wContentType := wContentType wr;
                       wData := wData wr; wClosed := true |} in
      match writerCloseErr (env w) with
      | Some msg =>
        modify (setWriter (Some closed));;
        ret (Some (ErrOther msg))
      | None =>
        if decide (wBucket wr ∈ buckets w) then
          modify (fun w =>
            setWriter (Some closed)
              (setObjects
                 (<[(wBucket wr, wObject wr) :=
                      {| objData := wData wr;
                         objContentType :=
                           if (wContentType wr =? "")%string
                           then detectContentType (env w) (wData wr)
                           else wContentType wr;
                         objAttrs :=
                           {| Size := Z.of_nat (length (wData wr));
                              CRC32C := crc32c (env w) (wData wr);
                              Generation := nextGeneration (env w) |} |}]>
                    (objects w)) w));;
          ret None
        else
          modify (setWriter (Some closed));;
          ret (Some (ErrOther (noBucketErr (env w))))
      end
  | None => ret None
  end.

(** [obj.NewReader(ctx)]: the reader holds the object's bytes. *)
Definition NewReader (bucket object : string) : M (list Z + error) :=
  emit (ENewReader bucket object);;
  w ← get;
  ret (match newReaderErr (env w) with
       | Some msg => inr (ErrOther msg)
       | None =>
         match objects w !! (bucket, object) with
         | Some o => inl (objData o)
         | None => inr ErrObjectNotExist
         end
       end).

Definition ReaderClose : M (option error) :=
  emit EReaderClose;;
  w ← get;
  ret (match readerCloseErr (env w) with
     | Some msg => Some (ErrOther msg)
     | None => None
     end).

End storage.

(** ** The dual-direction program, GCP-Bucket-Loader v2.1 *)

Module Loader.

Definition Upload : string := "upload".
Definition Download : string := "download".

Record AppFlagStruct := {
  ActionType : string;
  FilePath : string;
  BucketName : string;
  ObjectPath : string;
  KeyPath : string;
  ContentType : string;
  ExtraChecks : bool;
  PublicRequest : bool;
  TimeoutValue : Z   (* uint: 0 <= TimeoutValue < 2^64 *)
}.

(** [ctx] is represented by the duration of its deadline, [client]
    by the option it was built with. *)
Record storageUnderlyingDataStruct := {
  ctx : Z;
  cancel : M unit;
  client : clientOption
}.

(** The local [timeoutDuration] of [createContext]. *)
Definition timeoutDuration (timeoutValue : Z) : Z :=
  if timeoutValue <=? 0
  then gotime.mul gotime.Second 60
  else gotime.mul gotime.Second timeoutValue.

Definition createContext (timeoutValue : Z) : M (Z * M unit) :=
  let timeoutDuration := timeoutDuration timeoutValue in
  emit (EWithTimeout timeoutDuration);;
  ret (timeoutDuration, emit ECancel).

Definition createClient (ctx : Z) (PublicRequest : bool) (keyPath : string)
  : M clientOption :=
  let clientOption :=
    if PublicRequest then WithoutAuthentication
    else WithCredentialsFile keyPath in
  err ← storage.NewClient ctx clientOption;
  match err with
  | Some err =>
    Fatalln ("FATAL ERROR: Cannot create new storage client! ("
             +:+ Error err +:+ ")")
  | None => ret clientOption
  end.

(** The text both transfer functions print for existing attributes. *)
Definition attrsText (a : ObjectAttrs) : string :=
  "SIZE: " +:+ FormatInt (Size a) +:+ ", CRC32: " +:+ FormatInt (CRC32C a)
  +:+ ", GENERATION: " +:+ FormatInt (Generation a) +:+ ")".

(** The global [appFlag] is passed as the first argument. *)
Definition uploadFile (appFlag : AppFlagStruct)
    (storageUnderlyingDataObject : storageUnderlyingDataStruct)
    (filePath bucketName objectPath contentType : string) : M unit :=
  let ctx := ctx storageUnderlyingDataObject in
  let cancel := cancel storageUnderlyingDataObject in
  let client := client storageUnderlyingDataObject in
  defer cancel (
  defer storage.ClientClose (
    r ← os.Open filePath;
    match r with
    | inr err =>
      Fatalln ("FATAL ERROR: Cannot open requested file! ("
               +:+ Error err +:+ ")")
    | inl file =>
      defer (os.Close file) (
        (if ExtraChecks appFlag then
           err ← storage.BucketAttrs bucketName;
           match err with
           | Some err =>
             if decide (err = ErrBucketNotExist)
             then Fatalln "FATAL ERROR: Bucket does not exist!"
             else Fatalln ("FATAL ERROR: Cannot fetch bucket info! ("
                           +:+ Error err +:+ ")")
           | None => ret tt
           end;;
           r ← storage.Attrs objectAttrsErr bucketName objectPath;
           match r with
           | inr err =>
             if decide (err = ErrObjectNotExist)
             then Println LogWarn
                    "WARNING: Object does not exist, going to create a new one."
             else Fatalln ("FATAL ERROR: Cannot fetch object info! ("
                           +:+ Error err +:+ ")")
           | inl objAttrs =>
             Println LogWarn
               ("WARNING: Object exists, going to override it! (Existing Object's "
                +:+ attrsText objAttrs)
           end
         else ret tt);;
        storage.NewWriter bucketName objectPath;;
        defer (storage.WriterClose;; ret tt) (
          (if negb (ContentType appFlag =? "")%string
           then storage.SetContentType contentType
           else ret tt);;
          '(bytes, err) ← io.CopyToWriter file;
          match err with
          | Some err =>
            Fatalln ("FATAL ERROR: Cannot copy file to bucket! ("
                     +:+ Error err +:+ ")")
          | None => ret tt
          end;;
          err ← storage.WriterClose;
          match err with
          | Some err =>
            Fatalln ("FATAL ERROR: Cannot write file to bucket! ("
                     +:+ Error err +:+ ")")
          | None => ret tt
          end;;
          if ExtraChecks appFlag then
            r ← storage.Attrs objectAttrsAfterErr bucketName objectPath;
            match r with
            | inr err =>
              Fatalln ("FATAL ERROR: Cannot fetch object info! ("
                       +:+ Error err +:+ ")")
            | inl objAttrsNew =>
              Println LogInfo
                ("SUCCESS: Object uploaded to GCP Bucket. (Uploaded Object's "
                 +:+ attrsText objAttrsNew)
            end
          else
            Println LogInfo
              ("SUCCESS: Object uploaded to GCP Bucket. (Written Bytes: "
               +:+ FormatInt bytes +:+ ")")))
    end)).

Definition downloadFile (appFlag : AppFlagStruct)
    (storageUnderlyingDataObject : storageUnderlyingDataStruct)
    (filePath bucketName objectPath : string) : M unit :=
  let ctx := ctx storageUnderlyingDataObject in
  let cancel := cancel storageUnderlyingDataObject in
  let client := client storageUnderlyingDataObject in
  defer cancel (
  defer storage.ClientClose (
    info ← os.Stat filePath;
    match info with
    | Some info =>
      if os.IsRegular info
      then Println LogWarn
             ("WARNING: File exists, going to override it! (Existing File's SIZE: "
              +:+ FormatInt (os.fileSize info) +:+ ")")
      else Println LogWarn "WARNING: Path exists but not a regular file!"
    | None => ret tt
    end;;
    r ← os.Create filePath;
    match r with
    | inr err =>
      Fatalln ("FATAL ERROR: Cannot create requested file! ("
               +:+ Error err +:+ ")")
    | inl file =>
      defer (os.Close file) (
        (if ExtraChecks appFlag then
           err ← storage.BucketAttrs bucketName;
           match err with
           | Some err =>
             if decide (err = ErrBucketNotExist)
             then Fatalln "FATAL ERROR: Bucket does not exist!"
             else Fatalln ("FATAL ERROR: Cannot fetch bucket info! ("
                           +:+ Error err +:+ ")")
           | None => ret tt
           end;;
           r ← storage.Attrs objectAttrsErr bucketName objectPath;
           match r with
           | inr err =>
             if decide (err = ErrObjectNotExist)
             then Fatalln "FATAL ERROR: Object does not exist!"
             else Fatalln ("FATAL ERROR: Cannot fetch object info! ("
                           +:+ Error err +:+ ")")
           | inl objAttrs =>
             Println LogWarn
               ("WARNING: Object exists! (Existing Object's "
                +:+ attrsText objAttrs)
           end
         else ret tt);;
        r ← storage.NewReader bucketName objectPath;
        match r with
        | inr err =>
          Fatalln ("FATAL ERROR: Cannot create new reader! ("
                   +:+ Error err +:+ ")")
        | inl reader =>
          defer (storage.ReaderClose;; ret tt) (
            '(bytes, err) ← io.CopyToFile file reader;
            match err with
            | Some err =>
              Fatalln ("FATAL ERROR: Cannot copy object from bucket! ("
                       +:+ Error err +:+ ")")
            | None => ret tt
            end;;
            err ← storage.ReaderClose;
            match err with
            | Some err =>
              Fatalln ("FATAL ERROR: Cannot read object from bucket! ("
                       +:+ Error err +:+ ")")
            | None => ret tt
            end;;
            Println LogInfo
              ("SUCCESS: Object downloaded from GCP Bucket. (Written Bytes: "
               +:+ FormatInt bytes +:+ ")"))
        end)
    end)).

(** The if-chain of [main] that selects the transfer, named so that
    statements can refer to it. *)
Definition dispatch (appFlag : AppFlagStruct)
    (storageUnderlyingDataObject : storageUnderlyingDataStruct) : M unit :=
  if gostrings.EqualFold (ActionType appFlag) Upload then
    uploadFile appFlag storageUnderlyingDataObject (FilePath appFlag)
      (BucketName appFlag) (ObjectPath appFlag) (ContentType appFlag)
  else if gostrings.EqualFold (ActionType appFlag) Download then
    downloadFile appFlag storageUnderlyingDataObject (FilePath appFlag)
      (BucketName appFlag) (ObjectPath appFlag)
  else Fatalln "FATAL ERROR: Wrong action parameter specified!".

(** [main], after [GetAppFlag] has filled the global [appFlag];
    [int(appFlag.TimeoutValue)] is the conversion [wrap64]. *)
Definition main (appFlag : AppFlagStruct) : M unit :=
  Println LogAlways "HELLO MSG: Welcome to GCP-Bucket-Loader v2.1 by EY!";;
  (if (ActionType appFlag =? "")%string || (FilePath appFlag =? "")%string
      || (BucketName appFlag =? "")%string || (ObjectPath appFlag =? "")%string
   then Fatalln "FATAL ERROR: All mandatory parameters must be filled!"
   else ret tt);;
  (if negb (PublicRequest appFlag) && (KeyPath appFlag =? "")%string
   then Fatalln "FATAL ERROR: Key parameter is mandatory when public is not set!"
   else ret tt);;
  (if PublicRequest appFlag && negb (KeyPath appFlag =? "")%string
   then Println LogWarn
          "WARNING: Key parameter is unnessary and discarded when public is set!"
   else ret tt);;
  '(ctx, cancel) ← createContext (wrap64 (TimeoutValue appFlag));
  client ← createClient ctx (PublicRequest appFlag) (KeyPath appFlag);
  let storageUnderlyingDataObject :=
    {| ctx := ctx; cancel := cancel; client := client |} in
  dispatch appFlag storageUnderlyingDataObject;;
  w ← get;
  Println LogAlways ("BYE MSG: All done in " +:+ elapsed (env w) +:+ "s, bye!").

(** The same flags with another [-key]. *)
Definition withKeyPath (keyPath : string) (appFlag : AppFlagStruct)
  : AppFlagStruct :=
  {| ActionType := ActionType appFlag; FilePath := FilePath appFlag;
     BucketName := BucketName appFlag; ObjectPath := ObjectPath appFlag;
     KeyPath := keyPath; ContentType := ContentType appFlag;
     ExtraChecks := ExtraChecks appFlag;
     PublicRequest := PublicRequest appFlag;
     TimeoutValue := TimeoutValue appFlag |}.

(** The first check of [main] passes. *)
Definition mandatoryFilled (appFlag : AppFlagStruct) : bool :=
  negb ((ActionType appFlag =? "")%string || (FilePath appFlag =? "")%string
        || (BucketName appFlag =? "")%string
        || (ObjectPath appFlag =? "")%string).

(** The second check of [main] passes. *)
Definition credentialGiven (appFlag : AppFlagStruct) : bool :=
  negb (negb (PublicRequest appFlag) && (KeyPath appFlag =? "")%string).

(** The option [createClient] builds for these flags. *)
Definition optionOf (appFlag : AppFlagStruct) : clientOption :=
  if PublicRequest appFlag then WithoutAuthentication
  else WithCredentialsFile (KeyPath appFlag).

(** What [main] has emitted when it reaches [dispatch]. *)
Definition sessionTrace (appFlag : AppFlagStruct) : list event :=
  [ELog LogAlways "HELLO MSG: Welcome to GCP-Bucket-Loader v2.1 by EY!"]
  ++ (if PublicRequest appFlag && negb (KeyPath appFlag =? "")%string
      then [ELog LogWarn
              "WARNING: Key parameter is unnessary and discarded when public is set!"]
      else [])
  ++ [EWithTimeout (timeoutDuration (wrap64 (TimeoutValue appFlag)));
      ENewClient (optionOf appFlag)].

End Loader.

(** ** The upload-only program, GCP-Bucket-Uploader v1.0 *)

Module Uploader.

Record AppFlagStruct := {
  FilePath : string;
  ContentType : string;
  BucketName : string;
  ObjectPath : string;
  KeyPath : string;
  ExtraChecks : bool
}.

Definition attrsText (a : ObjectAttrs) : string :=
  "SIZE: " +:+ FormatInt (Size a) +:+ ", CRC32: " +:+ FormatInt (CRC32C a)
  +:+ ", GENERATION: " +:+ FormatInt (Generation a) +:+ ")".

(** The global [appFlag] is passed as the first argument. *)
Definition uploadFile (appFlag : AppFlagStruct)
    (filePath contentType bucketName objectPath keyPath : string) : M unit :=
  let ctx := gotime.mul gotime.Second 60 in
  emit (EWithTimeout ctx);;
  defer (emit ECancel) (
    err ← storage.NewClient ctx (WithCredentialsFile keyPath);
    match err with
    | Some err =>
      Fatalln ("FATAL ERROR: Cannot create new storage client! ("
               +:+ Error err +:+ ")")
    | None => ret tt
    end;;
    defer storage.ClientClose (
      r ← os.Open filePath;
      match r with
      | inr err =>
        Fatalln ("FATAL ERROR: Cannot open requested file! ("
                 +:+ Error err +:+ ")")
      | inl file =>
        defer (os.Close file) (
          (if ExtraChecks appFlag then
             err ← storage.BucketAttrs bucketName;
             match err with
             | Some err =>
               if decide (err = ErrBucketNotExist)
               then Fatalln "FATAL ERROR: Bucket does not exist!"
               else Fatalln ("FATAL ERROR: Cannot fetch bucket info! ("
                             +:+ Error err +:+ ")")
             | None => ret tt
             end;;
             r ← storage.Attrs objectAttrsErr bucketName objectPath;
             match r with
             | inr err =>
               if decide (err = ErrObjectNotExist)
               then Println LogWarn
                      "WARNING: Object does not exist, going to create a new one."
               else Fatalln ("FATAL ERROR: Cannot fetch object info! ("
                             +:+ Error err +:+ ")")
             | inl objAttrs =>
               Println LogWarn
                 ("WARNING: Object exists, going to override it! (Existing Object's "
                  +:+ attrsText objAttrs)
             end
           else ret tt);;
          storage.NewWriter bucketName objectPath;;
          defer (storage.WriterClose;; ret tt) (
            (if negb (ContentType appFlag =? "")%string
             then storage.SetContentType contentType
             else ret tt);;
            '(bytes, err) ← io.CopyToWriter file;
            match err with
            | Some err =>
              Fatalln ("FATAL ERROR: Cannot copy file to bucket! ("
                       +:+ Error err +:+ ")")
            | None => ret tt
            end;;
            err ← storage.WriterClose;
            match err with
            | Some err =>
              Fatalln ("FATAL ERROR: Cannot write file to bucket! ("
                       +:+ Error err +:+ ")")
            | None => ret tt
            end;;
            if ExtraChecks appFlag then
              r ← storage.Attrs objectAttrsAfterErr bucketName objectPath;
              match r with
              | inr err =>
                Fatalln ("FATAL ERROR: Cannot fetch object info! ("
                         +:+ Error err +:+ ")")
              | inl objAttrsNew =>
                Println LogInfo
                  ("SUCCESS: Object uploaded to GCP Bucket. (Uploaded Object's "
                   +:+ attrsText objAttrsNew)
              end
            else
              Println LogInfo
                ("SUCCESS: Object uploaded to GCP Bucket. (Written Bytes: "
                 +:+ FormatInt bytes +:+ ")")))
      end)).

Definition main (appFlag : AppFlagStruct) : M unit :=
  Println LogAlways "HELLO MSG: Welcome to GCP-Bucket-Uploader v1.0 by EY!";;
  (if (FilePath appFlag =? "")%string || (BucketName appFlag =? "")%string
      || (ObjectPath appFlag =? "")%string || (KeyPath appFlag =? "")%string
   then Fatalln "FATAL ERROR: All mandatory parameters must be filled!"
   else ret tt);;
  uploadFile appFlag (FilePath appFlag) (ContentType appFlag)
    (BucketName appFlag) (ObjectPath appFlag) (KeyPath appFlag);;
  w ← get;
  Println LogAlways ("BYE MSG: All done in " +:+ elapsed (env w) +:+ "s, bye!").

(** The check of [main] passes. *)
Definition mandatoryFilled (appFlag : AppFlagStruct) : bool :=
  negb ((FilePath appFlag =? "")%string || (BucketName appFlag =? "")%string
        || (ObjectPath appFlag =? "")%string || (KeyPath appFlag =? "")%string).

End Uploader.

(** ** Observations on traces *)

Definition isCancel (e : event) : bool :=
  match e with ECancel => true | _ => false end.
Definition isClientClose (e : event) : bool :=
  match e with EClientClose => true | _ => false end.
Definition isFileClose (e : event) : bool :=
  match e with EFileClose _ => true | _ => false end.
Definition isFileOpen (e : event) : bool :=
  match e with EOpen _ | ECreate _ => true | _ => false end.
Definition isWithTimeout (e : event) : bool :=
  match e with EWithTimeout _ => true | _ => false end.
Definition isNewClient (e : event) : bool :=
  match e with ENewClient _ => true | _ => false end.
Definition isSession (e : event) : bool :=
  isWithTimeout e || isNewClient e.

(** How many events of a trace satisfy [p]. *)
Definition count (p : event -> bool) (t : list event) : nat :=
  length (filter (fun e => p e = true) t).

(** The trace, the final world and the outcome of a run. *)
Definition trace {A} (x : list event * world * outcome A) : list event := x.1.1.
Definition final {A} (x : list event * world * outcome A) : world := x.1.2.
Definition result {A} (x : list event * world * outcome A) : outcome A := x.2.

(** How often a trace cancels the context, closes the client and
    closes the local file. *)
Definition released (t : list event) : nat * nat * nat :=
  (count isCancel t, count isClientClose t, count isFileClose t).

Definition add3 (a b : nat * nat * nat) : nat * nat * nat :=
  ((a.1.1 + b.1.1)%nat, (a.1.2 + b.1.2)%nat, (a.2 + b.2)%nat).

(** ** Release discipline: a small logic over the monad

    [releases v m]: when [m] returns it has released [v]; when it ends
    the process, the status is 1 and nothing was released.
    [fires v m]: [m] always returns, having released [v]. *)

Definition releases {A} (v : nat * nat * nat) (m : M A) : Prop :=
  forall w, match result (m w) with
            | Ret _ => released (trace (m w)) = v
            | Exit c => c = 1 /\ released (trace (m w)) = (0, 0, 0)%nat
            end.

Definition fires {A} (v : nat * nat * nat) (m : M A) : Prop :=
  forall w, (exists a, result (m w) = Ret a) /\ released (trace (m w)) = v.

(** ** Symbolic execution

    [wp m w Q]: the run of [m] from [w] ends with a trace, a world and
    an outcome that satisfy [Q]. *)

Definition wp {A} (m : M A) (w : world)
    (Q : list event -> world -> outcome A -> Prop) : Prop :=
  Q (trace (m w)) (final (m w)) (result (m w)).

(** ** Vocabulary of the statements *)

(** ASCII lower case of a byte; a case variant of a word is a string
    whose bytes lower to the bytes of the word. *)
Definition lowerByte (b : Z) : Z :=
  if (0x41 <=? b) && (b <=? 0x5A) then b + 0x20 else b.

Definition caseVariant (s word : string) : Prop :=
  lowerByte <$> bytesOf s = bytesOf word.

(** A lower-case ASCII letter whose fold orbit is its upper case only. *)
Definition plainLower (c : Z) : Prop :=
  0x61 <= c <= 0x7A /\ c <> 0x6B /\ c <> 0x73.

(** The event writes with content type [ct], if it writes at all. *)
Definition writesWith (ct : string) (e : event) : Prop :=
  match e with
  | EWrite ct' _ => ct' = ct
  | _ => True
  end.




(** The session [main] hands to the transfer. *)
Definition sessionOf (appFlag : Loader.AppFlagStruct)
  : Loader.storageUnderlyingDataStruct :=
  {| Loader.ctx := Loader.timeoutDuration (wrap64 (Loader.TimeoutValue appFlag));
     Loader.cancel := emit ECancel;
     Loader.client := Loader.optionOf appFlag |}.

(** The last statement of [main]. *)
Definition farewell : M unit :=
  w ← get;
  Println LogAlways ("BYE MSG: All done in " +:+ elapsed (env w) +:+ "s, bye!").

(** The run [x], after the events [pre]. *)
Definition after {A} (pre : list event) (x : list event * world * outcome A)
  : list event * world * outcome A :=
  (pre ++ x.1.1, x.1.2, x.2).

(** The event builds no authenticated client. *)
Definition unauthenticated (e : event) : Prop :=
  match e with
  | ENewClient o => o = WithoutAuthentication
  | _ => True
  end.

(** Events that are no write to the local file. *)
Definition noRead (e : event) : Prop :=
  match e with
  | ERead _ _ => False
  | _ => True
  end.

(** ** Concrete inputs *)

(** An environment without failures, and a small world: one local
    file holding "hi", one empty bucket. *)
Definition quietEnv : environment :=
  {| clientErr := fun _ => None; openErr := fun _ => None;
     createErr := fun _ => None; bucketAttrsErr := None;
     objectAttrsErr := None; objectAttrsAfterErr := None;
     copyErr := None; writerCloseErr := None; newReaderErr := None;
     readerCloseErr := None; crc32c := fun _ => 0;
     detectContentType := fun _ => "text/plain; charset=utf-8";
     noBucketErr := "googleapi: Error 404: The specified bucket does not exist., notFound";
     nextGeneration := 1; elapsed := "0.1" |}.

Definition smallWorld : world :=
  {| env := quietEnv;
     files := {[ "a.txt" := Regular [104; 105] ]};
     buckets := {[ "b" ]};
     objects := ∅;
     writer := None |}.

Definition loaderFlags (action file key : string) (extra public : bool)
  : Loader.AppFlagStruct :=
  {| Loader.ActionType := action; Loader.FilePath := file;
     Loader.BucketName := "b"; Loader.ObjectPath := "o";
     Loader.KeyPath := key; Loader.ContentType := "text/plain";
     Loader.ExtraChecks := extra; Loader.PublicRequest := public;
     Loader.TimeoutValue := 0 |}.

Definition uploaderFlags (file key : string) (extra : bool)
  : Uploader.AppFlagStruct :=
  {| Uploader.FilePath := file; Uploader.ContentType := "text/plain";
     Uploader.BucketName := "b"; Uploader.ObjectPath := "o";
     Uploader.KeyPath := key; Uploader.ExtraChecks := extra |}.

(** The flags of [-action=upload -file=a.txt -bucket=b -object=o
    -key=k.json -timeout=t]. *)
Definition timeoutFlags (t : Z) : Loader.AppFlagStruct :=
  {| Loader.ActionType := "upload"; Loader.FilePath := "a.txt";
     Loader.BucketName := "b"; Loader.ObjectPath := "o";
     Loader.KeyPath := "k.json"; Loader.ContentType := "";
     Loader.ExtraChecks := false; Loader.PublicRequest := false;
     Loader.TimeoutValue := t |}.

(** The session [main] hands to the transfer for flags without failure. *)
Definition someSession : Loader.storageUnderlyingDataStruct :=
  {| Loader.ctx := 60000000000; Loader.cancel := emit ECancel;
     Loader.client := WithCredentialsFile "k.json" |}.

(** ** Vocabulary of the further properties *)

(** Events that fetch no bucket or object metadata. *)
Definition noMetadata (e : event) : Prop :=
  match e with
  | EBucketAttrs _ => False
  | EObjectAttrs _ _ => False
  | _ => True
  end.

(** The object a successful upload of [data] leaves in the bucket:
    under the content type of the invocation, or the detected one
    when that is empty. *)
Definition uploaded (e : environment) (contentType : string) (data : list Z)
  : object :=
  {| objData := data;
     objContentType := if (contentType =? "")%string
                       then detectContentType e data else contentType;
     objAttrs := {| Size := Z.of_nat (length data);
                    CRC32C := crc32c e data;
                    Generation := nextGeneration e |} |}.

(** The deadline [main] asks for, for a [-timeout] of [t] seconds that
    the duration type can hold or that leaves the range of [int]. *)
Definition deadlineOf (t : Z) : Z :=
  if (t =? 0) || (2 ^ 63 <=? t) then 60 * gotime.Second else t * gotime.Second.

(** A world in which no storage client can be built. *)
Definition offlineWorld : world :=
  {| env := {| clientErr := fun _ => Some "dial tcp: no route to host";
               openErr := fun _ => None; createErr := fun _ => None;
               bucketAttrsErr := None; objectAttrsErr := None;
               objectAttrsAfterErr := None; copyErr := None;
               writerCloseErr := None; newReaderErr := None;
               readerCloseErr := None; crc32c := fun _ => 0;
               detectContentType := fun _ => "text/plain; charset=utf-8";
               noBucketErr := "googleapi: Error 404: The specified bucket does not exist., notFound";
               nextGeneration := 1; elapsed := "0.1" |};
     files := {[ "a.txt" := Regular [104; 105] ]};
     buckets := {[ "b" ]};
     objects := ∅;
     writer := None |}.

(** A world whose bucket holds the object "o" with the bytes "hey",
    and whose local file "out.txt" holds older bytes. *)
Definition storedWorld : world :=
  {| env := quietEnv;
     files := {[ "out.txt" := Regular [1; 2; 3; 4; 5] ]};
     buckets := {[ "b" ]};
     objects := {[ ("b", "o") := uploaded quietEnv "text/plain" [104; 101; 121] ]};
     writer := None |}.

(** How a run may end: returning after the farewell line, or with
    status 1 after a fatal-error line. *)
Definition properEnd (t : list event) (w' : world) (r : outcome unit) : Prop :=
  match r with
  | Ret _ =>
    last t = Some (ELog LogAlways ("BYE MSG: All done in "
                                   +:+ elapsed (env w') +:+ "s, bye!"))
  | Exit c =>
    c = 1 /\ exists msg, last t = Some (ELog LogErr ("FATAL ERROR: " +:+ msg))
  end.

(** A trace that ends with the success line followed by the releases
    in reverse order of acquisition: the stream (which was already
    closed once before the line), the local file, the client, the
    context. *)
Definition releasedInOrder (path : string) (t : list event) : Prop :=
  exists pre msg x,
    t = pre ++ [ELog LogInfo msg; x; EFileClose path; EClientClose; ECancel]
    /\ (x = EWriterClose \/ x = EReaderClose)
    /\ x ∈ pre.

(** * Properties *)

Lemma released_app t1 t2 : released (t1 ++ t2) = add3 (released t1) (released t2).
Proof.
  unfold released, count, add3. rewrite !filter_app, !length_app. reflexivity.
Qed.

Lemma add3_0_l v : add3 (0, 0, 0)%nat v = v.
Proof. destruct v as [[a b] c]. reflexivity. Qed.

Lemma add3_0_r v : add3 v (0, 0, 0)%nat = v.
Proof. destruct v as [[a b] c]. unfold add3. simpl. f_equal; [f_equal|]; lia. Qed.

Section ReleaseRules.
Context {A B : Type}.

Lemma fires_releases v (m : M A) : fires v m -> releases v m.
Proof.
  intros H w. destruct (H w) as [[a Ha] Hv]. rewrite Ha. exact Hv.
Qed.

Lemma releases_ret v (a : A) : v = (0, 0, 0)%nat -> releases v (mret a).
Proof. intros -> w. reflexivity. Qed.

Lemma fires_ret (a : A) : fires (0, 0, 0)%nat (mret a).
Proof. intros w. split; [eexists|]; reflexivity. Qed.

Lemma releases_Fatalln v msg : releases v (@Fatalln A msg).
Proof. intros w. split; reflexivity. Qed.

Lemma releases_bind v (m : M A) (k : A -> M B) :
  releases (0, 0, 0)%nat m -> (forall a, releases v (k a)) ->
  releases v (m ≫= k).
Proof.
  intros Hm Hk w. specialize (Hm w).
  unfold mbind, M_bind, bind, result, trace in *.
  destruct (m w) as [[t1 w1] [a|c]]; simpl in *.
  - specialize (Hk a w1). unfold result, trace in Hk.
    destruct (k a w1) as [[t2 w2] r2]; simpl in *.
    destruct r2; rewrite released_app, Hm, add3_0_l; exact Hk.
  - exact Hm.
Qed.

Lemma releases_bind_fires v (m : M A) (k : A -> M B) :
  releases v m -> (forall a, fires (0, 0, 0)%nat (k a)) ->
  releases v (m ≫= k).
Proof.
  intros Hm Hk w. specialize (Hm w).
  unfold mbind, M_bind, bind, result, trace in *.
  destruct (m w) as [[t1 w1] [a|c]]; simpl in *.
  - destruct (Hk a w1) as [[b Hb] Hv]. unfold result, trace in *.
    destruct (k a w1) as [[t2 w2] r2]; simpl in *. subst r2.
    rewrite released_app, Hv, add3_0_r. exact Hm.
  - exact Hm.
Qed.

Lemma fires_bind v1 v2 v (m : M A) (k : A -> M B) :
  fires v1 m -> (forall a, fires v2 (k a)) -> add3 v1 v2 = v ->
  fires v (m ≫= k).
Proof.
  intros Hm Hk <- w. destruct (Hm w) as [[a Ha] Hv].
  unfold mbind, M_bind, bind, result, trace in *.
  destruct (m w) as [[t1 w1] r]; simpl in *. subst r.
  destruct (Hk a w1) as [[b Hb] Hv2]. unfold result, trace in *.
  destruct (k a w1) as [[t2 w2] r2]; simpl in *. subst r2.
  split; [eexists; reflexivity|]. rewrite released_app. congruence.
Qed.

Lemma releases_defer v vd u (d : M unit) (body : M A) :
  releases v body -> fires vd d -> add3 v vd = u ->
  releases u (defer d body).
Proof.
  intros Hb Hd <- w. specialize (Hb w).
  unfold defer, result, trace in *.
  destruct (body w) as [[t1 w1] [a|c]]; simpl in *.
  - destruct (Hd w1) as [[x Hx] Hv]. unfold result, trace in *.
    destruct (d w1) as [[t2 w2] r2]; simpl in *. subst r2.
    rewrite released_app. congruence.
  - exact Hb.
Qed.

End ReleaseRules.

Lemma fires_emit e : fires (released [e]) (emit e).
Proof. intros w. split; [eexists|]; reflexivity. Qed.

Lemma fires_get : fires (0, 0, 0)%nat get.
Proof. intros w. split; [eexists|]; reflexivity. Qed.

Lemma fires_modify f : fires (0, 0, 0)%nat (modify f).
Proof. intros w. split; [eexists|]; reflexivity. Qed.

Lemma fires_Println c msg : fires (0, 0, 0)%nat (Println c msg).
Proof. intros w. split; [eexists|]; reflexivity. Qed.

Lemma fires_bind0 {A B} (m : M A) (k : A -> M B) :
  fires (0, 0, 0)%nat m -> (forall a, fires (0, 0, 0)%nat (k a)) ->
  fires (0, 0, 0)%nat (m ≫= k).
Proof. intros Hm Hk. eapply fires_bind; [exact Hm | exact Hk | reflexivity]. Qed.

(** A bind whose continuation may rely on a fact [Q] about the value. *)
Lemma releases_bind_post {A B} (Q : A -> Prop) v (m : M A) (k : A -> M B) :
  releases (0, 0, 0)%nat m ->
  (forall w a, result (m w) = Ret a -> Q a) ->
  (forall a, Q a -> releases v (k a)) ->
  releases v (m ≫= k).
Proof.
  intros Hm HQ Hk w. specialize (Hm w). specialize (HQ w).
  unfold mbind, M_bind, bind, result, trace in *.
  destruct (m w) as [[t1 w1] [a|c]]; simpl in *.
  - specialize (Hk a (HQ a eq_refl) w1). unfold result, trace in Hk.
    destruct (k a w1) as [[t2 w2] r2]; simpl in *.
    destruct r2; rewrite released_app, Hm, add3_0_l; exact Hk.
  - exact Hm.
Qed.

(** Calls that return without releasing anything. *)
Ltac quiet :=
  repeat first
    [ apply fires_ret | apply fires_get | apply fires_modify
    | apply fires_Println | apply fires_emit
    | apply fires_bind0; [ | intros ? ]
    | match goal with
      | |- fires _ (match ?x with _ => _ end) => destruct x
      | |- fires _ (let _ := _ in _) => cbv zeta
      end ].

Lemma fires_Stat path : fires (0, 0, 0)%nat (os.Stat path).
Proof. unfold os.Stat. quiet. Qed.

Lemma fires_Open path : fires (0, 0, 0)%nat (os.Open path).
Proof. unfold os.Open. quiet. Qed.

Lemma fires_Create path : fires (0, 0, 0)%nat (os.Create path).
Proof. unfold os.Create. quiet. Qed.

Lemma fires_CopyToWriter file : fires (0, 0, 0)%nat (io.CopyToWriter file).
Proof. unfold io.CopyToWriter. quiet. Qed.

Lemma fires_CopyToFile file reader :
  fires (0, 0, 0)%nat (io.CopyToFile file reader).
Proof. unfold io.CopyToFile. quiet. Qed.

Lemma fires_NewClient ctx o : fires (0, 0, 0)%nat (storage.NewClient ctx o).
Proof. unfold storage.NewClient. quiet. Qed.

Lemma fires_BucketAttrs b : fires (0, 0, 0)%nat (storage.BucketAttrs b).
Proof. unfold storage.BucketAttrs. quiet. Qed.

Lemma fires_Attrs fault b o : fires (0, 0, 0)%nat (storage.Attrs fault b o).
Proof. unfold storage.Attrs. quiet. Qed.

Lemma fires_NewWriter b o : fires (0, 0, 0)%nat (storage.NewWriter b o).
Proof. unfold storage.NewWriter. quiet. Qed.

Lemma fires_SetContentType ct : fires (0, 0, 0)%nat (storage.SetContentType ct).
Proof. unfold storage.SetContentType. quiet. Qed.

Lemma fires_WriterClose : fires (0, 0, 0)%nat storage.WriterClose.
Proof. unfold storage.WriterClose. quiet. Qed.

Lemma fires_NewReader b o : fires (0, 0, 0)%nat (storage.NewReader b o).
Proof. unfold storage.NewReader. quiet. Qed.

Lemma fires_ReaderClose : fires (0, 0, 0)%nat storage.ReaderClose.
Proof. unfold storage.ReaderClose. quiet. Qed.

Lemma fires_ClientClose : fires (0, 1, 0)%nat storage.ClientClose.
Proof. apply fires_emit. Qed.

Lemma fires_Close file : fires (0, 0, 1)%nat (os.Close file).
Proof. apply fires_emit. Qed.

Lemma fires_cancel : fires (1, 0, 0)%nat (emit ECancel).
Proof. apply fires_emit. Qed.

Create HintDb release.
#[export] Hint Resolve fires_Stat fires_Open fires_Create fires_CopyToWriter
  fires_CopyToFile fires_NewClient fires_BucketAttrs fires_Attrs
  fires_NewWriter fires_SetContentType fires_WriterClose fires_NewReader
  fires_ReaderClose fires_ClientClose fires_Close fires_cancel
  fires_ret fires_get fires_modify fires_Println fires_emit fires_bind0
  : release.

Lemma releases_defer0 {A} v (d : M unit) (body : M A) :
  releases v body -> fires (0, 0, 0)%nat d -> releases v (defer d body).
Proof. intros Hb Hd. eapply releases_defer; eauto using add3_0_r. Qed.

(** One step of the release logic on a program text. *)
Ltac release_step :=
  first
    [ apply releases_Fatalln
    | apply releases_defer0; [ | solve [auto with release] ]
    | apply releases_ret; reflexivity
    | apply fires_releases; solve [auto with release]
    | apply releases_bind; [ | intros ? ]
    | match goal with
      | |- releases _ (match ?x with _ => _ end) => destruct x
      | |- releases _ (let '(_, _) := ?x in _) => destruct x
      end ].

Lemma Loader_uploadFile_releases f sud file b o ct :
  fires (1, 0, 0)%nat (Loader.cancel sud) ->
  releases (1, 1, 1)%nat (Loader.uploadFile f sud file b o ct).
Proof.
  intros Hc. unfold Loader.uploadFile.
  apply (releases_defer (0, 1, 1)%nat (1, 0, 0)%nat); [ | exact Hc | reflexivity ].
  apply (releases_defer (0, 0, 1)%nat (0, 1, 0)%nat);
    [ | apply fires_ClientClose | reflexivity ].
  apply releases_bind; [release_step|intros r].
  destruct r as [file'|err]; [|apply releases_Fatalln].
  apply (releases_defer (0, 0, 0)%nat (0, 0, 1)%nat);
    [ | apply fires_Close | reflexivity ].
  repeat release_step.
Qed.

Lemma Loader_downloadFile_releases f sud file b o :
  fires (1, 0, 0)%nat (Loader.cancel sud) ->
  releases (1, 1, 1)%nat (Loader.downloadFile f sud file b o).
Proof.
  intros Hc. unfold Loader.downloadFile.
  apply (releases_defer (0, 1, 1)%nat (1, 0, 0)%nat); [ | exact Hc | reflexivity ].
  apply (releases_defer (0, 0, 1)%nat (0, 1, 0)%nat);
    [ | apply fires_ClientClose | reflexivity ].
  apply releases_bind; [release_step|intros info].
  apply releases_bind; [repeat release_step|intros _].
  apply releases_bind; [release_step|intros r].
  destruct r as [file'|err]; [|apply releases_Fatalln].
  apply (releases_defer (0, 0, 0)%nat (0, 0, 1)%nat);
    [ | apply fires_Close | reflexivity ].
  repeat release_step.
Qed.

Lemma Uploader_uploadFile_releases f file ct b o key :
  releases (1, 1, 1)%nat (Uploader.uploadFile f file ct b o key).
Proof.
  unfold Uploader.uploadFile.
  apply releases_bind; [release_step|intros _].
  apply (releases_defer (0, 1, 1)%nat (1, 0, 0)%nat);
    [ | apply fires_cancel | reflexivity ].
  apply releases_bind; [release_step|intros err].
  apply releases_bind; [repeat release_step|intros _].
  apply (releases_defer (0, 0, 1)%nat (0, 1, 0)%nat);
    [ | apply fires_ClientClose | reflexivity ].
  apply releases_bind; [release_step|intros r].
  destruct r as [file'|err']; [|apply releases_Fatalln].
  apply (releases_defer (0, 0, 0)%nat (0, 0, 1)%nat);
    [ | apply fires_Close | reflexivity ].
  repeat release_step.
Qed.

Lemma Loader_main_releases f : releases (1, 1, 1)%nat (Loader.main f).
Proof.
  unfold Loader.main.
  do 4 (apply releases_bind; [repeat release_step|intros _]).
  apply (releases_bind_post (fun p => p.2 = emit ECancel)).
  - unfold Loader.createContext. repeat release_step.
  - intros w [d c] H. unfold Loader.createContext, result in H.
    simpl in H. inversion H. reflexivity.
  - intros [d c] Hc. simpl in Hc. subst c.
    apply releases_bind.
    + unfold Loader.createClient. repeat release_step.
    + intros client. apply releases_bind_fires.
      * unfold Loader.dispatch.
        repeat case_match; [ apply Loader_uploadFile_releases
                           | apply Loader_downloadFile_releases
                           | apply releases_Fatalln ]; apply fires_cancel.
      * intros _. quiet.
Qed.

Lemma Uploader_main_releases f : releases (1, 1, 1)%nat (Uploader.main f).
Proof.
  unfold Uploader.main.
  do 2 (apply releases_bind; [repeat release_step|intros _]).
  apply releases_bind_fires; [apply Uploader_uploadFile_releases|].
  intros _. quiet.
Qed.

(** ** Rules of symbolic execution *)

Section WpRules.
Context {A B : Type}.

Lemma wp_bind (m : M A) (k : A -> M B) w Q :
  wp m w (fun t1 w1 r =>
            match r with
            | Ret a => wp (k a) w1 (fun t2 w2 r2 => Q (t1 ++ t2) w2 r2)
            | Exit c => Q t1 w1 (Exit c)
            end) ->
  wp (m ≫= k) w Q.
Proof.
  unfold wp, mbind, M_bind, bind, trace, final, result.
  destruct (m w) as [[t1 w1] [a|c]]; simpl; [|tauto].
  destruct (k a w1) as [[t2 w2] r2]; simpl. tauto.
Qed.

Lemma wp_defer (d : M unit) (body : M A) w Q :
  wp body w (fun t1 w1 r =>
               match r with
               | Ret a =>
                 wp d w1 (fun t2 w2 r2 =>
                            Q (t1 ++ t2) w2
                              (match r2 with
                               | Ret _ => Ret a
                               | Exit c => Exit c
                               end))
               | Exit c => Q t1 w1 (Exit c)
               end) ->
  wp (defer d body) w Q.
Proof.
  unfold wp, defer, trace, final, result.
  destruct (body w) as [[t1 w1] [a|c]]; simpl; [|tauto].
  destruct (d w1) as [[t2 w2] r2]; simpl. tauto.
Qed.

Lemma wp_ret (a : A) w Q : Q [] w (Ret a) -> wp (mret a) w Q.
Proof. exact id. Qed.

Lemma wp_osExit c w (Q : list event -> world -> outcome A -> Prop) :
  Q [] w (Exit c) -> wp (osExit c) w Q.
Proof. exact id. Qed.

(** A computation about which nothing is known. *)
Lemma wp_any (m : M A) w (Q : list event -> world -> outcome A -> Prop) :
  (forall t w' r, Q t w' r) -> wp m w Q.
Proof. intros H. apply H. Qed.

(** From a property of the run to an equation on it. *)
Lemma wp_eq (m : M A) w x : wp m w (fun t w' r => (t, w', r) = x) -> m w = x.
Proof.
  unfold wp, trace, final, result. destruct (m w) as [[t w'] r]. exact id.
Qed.

End WpRules.

Lemma wp_emit e w Q : Q [e] w (Ret tt) -> wp (emit e) w Q.
Proof. exact id. Qed.

Lemma wp_get w Q : Q [] w (Ret w) -> wp get w Q.
Proof. exact id. Qed.

Lemma wp_modify f w Q : Q [] (f w) (Ret tt) -> wp (modify f) w Q.
Proof. exact id. Qed.

Lemma wp_mono {A} (m : M A) w (Q Q' : list event -> world -> outcome A -> Prop) :
  wp m w Q -> (forall t w' r, Q t w' r -> Q' t w' r) -> wp m w Q'.
Proof. unfold wp. intros H HQ. apply HQ, H. Qed.

(** Case analysis on the innermost scrutinee of a term, unless a
    hypothesis already gives its value. *)
Ltac case_inner x :=
  lazymatch x with
  | context [match ?y with _ => _ end] => case_inner y
  | _ =>
    first [ match goal with H : x = _ |- _ => rewrite H end
          | destruct x eqn:?; try discriminate; try congruence;
            try contradiction ]
  end.

Ltac head_of t :=
  lazymatch t with
  | ?f _ => head_of f
  | _ => t
  end.

Ltac wp_simpl :=
  try unfold io.moved;
  cbn [files env buckets objects writer setFiles setObjects setWriter
       from_option fmap option_fmap option_map
       wBucket wObject wContentType wData wClosed
       Loader.ctx Loader.cancel Loader.client].

Ltac wp_step :=
  lazymatch goal with
  | |- wp (mbind _ _) _ _ => apply wp_bind
  | |- wp (defer _ _) _ _ => apply wp_defer
  | |- wp (emit _) _ _ => apply wp_emit; wp_simpl
  | |- wp (mret _) _ _ => apply wp_ret; wp_simpl
  | |- wp (ret _) _ _ => apply wp_ret; wp_simpl
  | |- wp get _ _ => apply wp_get; wp_simpl
  | |- wp (modify _) _ _ =>
    apply wp_modify; wp_simpl;
    lazymatch goal with
    | |- wp _ (match ?x with _ => _ end) _ => case_inner x; wp_simpl
    | |- _ => idtac
    end
  | |- wp (osExit _) _ _ => apply wp_osExit; wp_simpl
  | |- wp (match ?x with _ => _ end) _ _ => case_inner x; wp_simpl
  | |- wp (let _ := _ in _) _ _ => cbv zeta
  | |- wp ?m _ _ =>
    let h := head_of m in
    lazymatch h with
    | Loader.dispatch => fail
    | _ => unfold h; wp_simpl
    end
  end.

Ltac wp_run := repeat wp_step.

(** ** Validation *)

Lemma Loader_missing_mandatory f w :
  Loader.mandatoryFilled f = false ->
  Loader.main f w =
  ([ELog LogAlways "HELLO MSG: Welcome to GCP-Bucket-Loader v2.1 by EY!";
    ELog LogErr "FATAL ERROR: All mandatory parameters must be filled!"],
   w, Exit 1).
Proof.
  unfold Loader.mandatoryFilled. intros H. apply negb_false_iff in H.
  apply wp_eq. unfold Loader.main. rewrite H. wp_run. reflexivity.
Qed.

Lemma Loader_missing_credential f w :
  Loader.mandatoryFilled f = true ->
  Loader.credentialGiven f = false ->
  Loader.main f w =
  ([ELog LogAlways "HELLO MSG: Welcome to GCP-Bucket-Loader v2.1 by EY!";
    ELog LogErr "FATAL ERROR: Key parameter is mandatory when public is not set!"],
   w, Exit 1).
Proof.
  unfold Loader.mandatoryFilled, Loader.credentialGiven. intros Hm Hc.
  apply negb_true_iff in Hm. apply negb_false_iff in Hc.
  apply wp_eq. unfold Loader.main. rewrite Hm, Hc. wp_run. reflexivity.
Qed.

Lemma Uploader_missing_mandatory f w :
  Uploader.mandatoryFilled f = false ->
  Uploader.main f w =
  ([ELog LogAlways "HELLO MSG: Welcome to GCP-Bucket-Uploader v1.0 by EY!";
    ELog LogErr "FATAL ERROR: All mandatory parameters must be filled!"],
   w, Exit 1).
Proof.
  unfold Uploader.mandatoryFilled. intros H. apply negb_false_iff in H.
  apply wp_eq. unfold Uploader.main. rewrite H. wp_run. reflexivity.
Qed.

(** C3.  Whenever a mandatory flag is empty (action, file, bucket or
    object in the dual-direction program; file, bucket, object or key
    in the upload-only program), the process prints the greeting and
    the missing-parameter error and exits with status 1: the trace
    holds no context or client creation, and the world is untouched. *)
Theorem missing_mandatory_exits_before_session :
  (forall (f : Loader.AppFlagStruct) w,
      Loader.ActionType f = "" \/ Loader.FilePath f = ""
      \/ Loader.BucketName f = "" \/ Loader.ObjectPath f = "" ->
      Loader.main f w =
      ([ELog LogAlways "HELLO MSG: Welcome to GCP-Bucket-Loader v2.1 by EY!";
        ELog LogErr "FATAL ERROR: All mandatory parameters must be filled!"],
       w, Exit 1)
      /\ count isSession (trace (Loader.main f w)) = 0%nat)
  /\
  (forall (f : Uploader.AppFlagStruct) w,
      Uploader.FilePath f = "" \/ Uploader.BucketName f = ""
      \/ Uploader.ObjectPath f = "" \/ Uploader.KeyPath f = "" ->
      Uploader.main f w =
      ([ELog LogAlways "HELLO MSG: Welcome to GCP-Bucket-Uploader v1.0 by EY!";
        ELog LogErr "FATAL ERROR: All mandatory parameters must be filled!"],
       w, Exit 1)
      /\ count isSession (trace (Uploader.main f w)) = 0%nat).
Proof.
  split; intros f w H.
  - assert (Hm : Loader.mandatoryFilled f = false).
    { unfold Loader.mandatoryFilled. apply negb_false_iff.
      destruct H as [H|[H|[H|H]]]; rewrite H; simpl;
        rewrite ?orb_true_r; reflexivity. }
    rewrite (Loader_missing_mandatory f w Hm). split; reflexivity.
  - assert (Hm : Uploader.mandatoryFilled f = false).
    { unfold Uploader.mandatoryFilled. apply negb_false_iff.
      destruct H as [H|[H|[H|H]]]; rewrite H; simpl;
        rewrite ?orb_true_r; reflexivity. }
    rewrite (Uploader_missing_mandatory f w Hm). split; reflexivity.
Qed.

Lemma missing_mandatory_exits_before_session_witness :
  Loader.main (loaderFlags "upload" "" "k.json" false false) smallWorld =
  ([ELog LogAlways "HELLO MSG: Welcome to GCP-Bucket-Loader v2.1 by EY!";
    ELog LogErr "FATAL ERROR: All mandatory parameters must be filled!"],
   smallWorld, Exit 1)
  /\ Uploader.main (uploaderFlags "a.txt" "" false) smallWorld =
     ([ELog LogAlways "HELLO MSG: Welcome to GCP-Bucket-Uploader v1.0 by EY!";
       ELog LogErr "FATAL ERROR: All mandatory parameters must be filled!"],
      smallWorld, Exit 1).
Proof.
  split.
  - apply (proj1 missing_mandatory_exits_before_session
             (loaderFlags "upload" "" "k.json" false false) smallWorld).
    right. left. reflexivity.
  - apply (proj2 missing_mandatory_exits_before_session
             (uploaderFlags "a.txt" "" false) smallWorld).
    right. right. right. reflexivity.
Defined.


(** ** The deadline *)

Lemma wrap64_small z : - 2 ^ 63 <= z < 2 ^ 63 -> wrap64 z = z.
Proof.
  intros H. unfold wrap64.
  rewrite Z.mod_small by lia. lia.
Qed.

Lemma timeoutDuration_default t :
  t <= 0 -> Loader.timeoutDuration t = 60 * gotime.Second.
Proof.
  intros H. unfold Loader.timeoutDuration.
  destruct (Z.leb_spec t 0); [reflexivity | lia].
Qed.

Lemma timeoutDuration_seconds t :
  0 < t <= 9223372036 -> Loader.timeoutDuration t = t * gotime.Second.
Proof.
  intros H. unfold Loader.timeoutDuration, gotime.mul, gotime.Second.
  destruct (Z.leb_spec t 0); [lia|].
  rewrite wrap64_small; lia.
Qed.

Lemma timeoutDuration_0_60 : Loader.timeoutDuration 0 = Loader.timeoutDuration 60.
Proof. reflexivity. Qed.

(** A [-timeout] of 2^63 or more becomes a negative [int] and so the
    default of 60 seconds. *)
Lemma timeoutDuration_of_large_uint t :
  2 ^ 63 <= t < 2 ^ 64 ->
  Loader.timeoutDuration (wrap64 t) = 60 * gotime.Second.
Proof.
  intros H. apply timeoutDuration_default. unfold wrap64.
  replace ((t + 2 ^ 63) mod 2 ^ 64) with (t + 2 ^ 63 - 2 ^ 64); [lia|].
  apply Z.mod_unique with (q := 1); lia.
Qed.

(** C4.  At [-timeout=9223372037] the product [time.Second *
    time.Duration(timeoutValue)] leaves [int64]: the deadline handed to
    [context.WithTimeout] is the negative duration -9223372036709551616
    ns, not 9223372037 seconds, and [main] creates its context with it. *)
Theorem timeoutDuration_overflows :
  Loader.timeoutDuration 9223372037 = -9223372036709551616
  /\ Loader.timeoutDuration 9223372037 <> 9223372037 * gotime.Second
  /\ EWithTimeout (-9223372036709551616)
     ∈ trace (Loader.main (timeoutFlags 9223372037) smallWorld).
Proof.
  split; [reflexivity|]. split; [discriminate|].
  vm_compute. apply list_elem_of_further, list_elem_of_here.
Qed.

(** ** Release of the session and of the local file *)

Lemma releases_on_return {A} v (m : M A) w a :
  releases v m -> result (m w) = Ret a -> released (trace (m w)) = v.
Proof. intros H Hr. specialize (H w). rewrite Hr in H. exact H. Qed.

(** C1, as the code has it.  In both programs a run that returns from
    [main] has cancelled the context once, closed the client once and
    closed the local file once; a run that fails the validation of the
    flags exits with status 1 before any context, client or file handle
    exists, and releases nothing. *)
Theorem release_once_on_return :
  (forall (f : Loader.AppFlagStruct) w,
      (result (Loader.main f w) = Ret tt ->
       released (trace (Loader.main f w)) = (1, 1, 1)%nat)
      /\ (Loader.mandatoryFilled f = false \/ Loader.credentialGiven f = false ->
          result (Loader.main f w) = Exit 1
          /\ count isSession (trace (Loader.main f w)) = 0%nat
          /\ count isFileOpen (trace (Loader.main f w)) = 0%nat
          /\ released (trace (Loader.main f w)) = (0, 0, 0)%nat))
  /\
  (forall (f : Uploader.AppFlagStruct) w,
      (result (Uploader.main f w) = Ret tt ->
       released (trace (Uploader.main f w)) = (1, 1, 1)%nat)
      /\ (Uploader.mandatoryFilled f = false ->
          result (Uploader.main f w) = Exit 1
          /\ count isSession (trace (Uploader.main f w)) = 0%nat
          /\ count isFileOpen (trace (Uploader.main f w)) = 0%nat
          /\ released (trace (Uploader.main f w)) = (0, 0, 0)%nat)).
Proof.
  split; intros f w; split.
  - apply releases_on_return, Loader_main_releases.
  - destruct (Loader.mandatoryFilled f) eqn:Hm.
    + intros [H|Hc]; [discriminate|].
      rewrite (Loader_missing_credential f w Hm Hc). repeat split.
    + intros _. rewrite (Loader_missing_mandatory f w Hm). repeat split.
  - apply releases_on_return, Uploader_main_releases.
  - intros Hm. rewrite (Uploader_missing_mandatory f w Hm). repeat split.
Qed.

Lemma release_once_on_return_witness :
  released (trace (Loader.main (loaderFlags "upload" "a.txt" "k.json" true false)
                               smallWorld)) = (1, 1, 1)%nat
  /\ released (trace (Uploader.main (uploaderFlags "a.txt" "k.json" false)
                                    smallWorld)) = (1, 1, 1)%nat
  /\ released (trace (Loader.main (loaderFlags "upload" "a.txt" "" true false)
                                  smallWorld)) = (0, 0, 0)%nat.
Proof.
  destruct release_once_on_return as [HL HU].
  split; [|split].
  - apply (proj1 (HL (loaderFlags "upload" "a.txt" "k.json" true false)
                     smallWorld)).
    reflexivity.
  - apply (proj1 (HU (uploaderFlags "a.txt" "k.json" false) smallWorld)).
    reflexivity.
  - apply (proj2 (HL (loaderFlags "upload" "a.txt" "" true false) smallWorld)).
    right. reflexivity.
Defined.

(** C1 fails where a transfer error ends the process: the local file
    is missing, the context and the client exist, the process exits
    with status 1, and neither [cancel] nor [client.Close] has run. *)
Lemma fatal_exit_skips_release :
  let run := Loader.main (loaderFlags "upload" "missing.txt" "k.json" false false)
                         smallWorld in
  result run = Exit 1
  /\ count isSession (trace run) = 2%nat
  /\ released (trace run) = (0, 0, 0)%nat
  /\ released (trace run) <> (1, 1, 1)%nat.
Proof. vm_compute. repeat split; discriminate. Qed.

(** ** The session prefix of the dual-direction program *)

(** What [main] does around the dispatch, once both checks pass: it
    emits [sessionTrace], stops there if the client cannot be built,
    and otherwise runs the dispatch and prints the farewell. *)
Lemma Loader_main_session f w Q :
  Loader.mandatoryFilled f = true ->
  Loader.credentialGiven f = true ->
  match clientErr (env w) (Loader.optionOf f) with
  | Some msg =>
    Q (Loader.sessionTrace f
       ++ [ELog LogErr ("FATAL ERROR: Cannot create new storage client! ("
                        +:+ msg +:+ ")")]) w (Exit 1)
  | None =>
    wp (Loader.dispatch f
          {| Loader.ctx := Loader.timeoutDuration (wrap64 (Loader.TimeoutValue f));
             Loader.cancel := emit ECancel;
             Loader.client := Loader.optionOf f |})
       w (fun t w' r =>
            match r with
            | Ret _ =>
              Q (Loader.sessionTrace f ++ t
                 ++ [ELog LogAlways ("BYE MSG: All done in "
                                     +:+ elapsed (env w') +:+ "s, bye!")])
                w' (Ret tt)
            | Exit c => Q (Loader.sessionTrace f ++ t) w' (Exit c)
            end)
  end ->
  wp (Loader.main f) w Q.
Proof.
  unfold Loader.mandatoryFilled, Loader.credentialGiven.
  intros Hm Hc H. apply negb_true_iff in Hm, Hc.
  unfold Loader.main. rewrite Hm, Hc.
  unfold Loader.sessionTrace, Loader.optionOf in *.
  destruct (Loader.PublicRequest f), (Loader.KeyPath f =? "")%string;
    try discriminate; cbn [andb negb] in *.
  all: destruct (clientErr (env w) _) as [msg|] eqn:He.
  all: wp_run.
  all: try (cbn [app Error] in *; exact H).
  all: eapply wp_mono; [exact H|]; intros t w' [[]|c] HQ; wp_run;
    cbn [app] in *; exact HQ.
Qed.

(** Closing a list-shaped goal after symbolic execution. *)
Ltac all_events :=
  cbn [app]; repeat (apply List.Forall_cons; [try reflexivity|]);
  try apply List.Forall_nil.

(** The transfer itself creates no context and no client. *)
Lemma dispatch_creates_no_session f ctx client w :
  wp (Loader.dispatch f {| Loader.ctx := ctx; Loader.cancel := emit ECancel;
                           Loader.client := client |}) w
     (fun t _ _ => Forall (fun e => isSession e = false) t).
Proof.
  unfold Loader.dispatch.
  destruct (gostrings.EqualFold _ Loader.Upload);
    [|destruct (gostrings.EqualFold _ Loader.Download)].
  all: wp_run.
  all: all_events.
Qed.

(** A property of single events holds of a whole run of [main] when it
    holds of log lines, of the creation of the context and of the
    client, and of the events of the transfer. *)
Lemma Loader_main_Forall (P : event -> Prop) f :
  (forall c msg, P (ELog c msg)) ->
  (forall d, P (EWithTimeout d)) ->
  P (ENewClient (Loader.optionOf f)) ->
  (forall ctx client w,
      wp (Loader.dispatch f {| Loader.ctx := ctx; Loader.cancel := emit ECancel;
                               Loader.client := client |}) w
         (fun t _ _ => Forall P t)) ->
  forall w, Forall P (trace (Loader.main f w)).
Proof.
  intros Hlog Htime Hclient Hdispatch w.
  assert (Hs : Forall P (Loader.sessionTrace f)).
  { unfold Loader.sessionTrace.
    destruct (Loader.PublicRequest f && negb (Loader.KeyPath f =? "")%string);
      repeat constructor; auto. }
  destruct (Loader.mandatoryFilled f) eqn:Hm;
    [|rewrite (Loader_missing_mandatory f w Hm); repeat constructor; auto].
  destruct (Loader.credentialGiven f) eqn:Hc;
    [|rewrite (Loader_missing_credential f w Hm Hc); repeat constructor; auto].
  change (wp (Loader.main f) w (fun t _ _ => Forall P t)).
  apply Loader_main_session; [exact Hm | exact Hc |].
  destruct (clientErr (env w) (Loader.optionOf f)).
  - apply Forall_app. split; [exact Hs | repeat constructor; auto].
  - eapply wp_mono; [apply Hdispatch|]. intros t w' r Ht.
    destruct r; (apply Forall_app; split; [exact Hs|]); [|exact Ht].
    apply Forall_app. split; [exact Ht | repeat constructor; auto].
Qed.

Lemma sessionTrace_released f : released (Loader.sessionTrace f) = (0, 0, 0)%nat.
Proof.
  unfold Loader.sessionTrace.
  destruct (Loader.PublicRequest f && negb (Loader.KeyPath f =? "")%string);
    reflexivity.
Qed.

Lemma sessionTrace_ends_with_client f :
  exists pre,
    Loader.sessionTrace f =
    pre ++ [EWithTimeout (Loader.timeoutDuration (wrap64 (Loader.TimeoutValue f)));
            ENewClient (Loader.optionOf f)].
Proof.
  unfold Loader.sessionTrace. rewrite app_assoc. eexists. reflexivity.
Qed.

(** ** A wrong action *)

(** C10.  When both checks pass and the action folds to neither word,
    [main] first emits the whole session prefix, which ends with the
    creation of the context and of the client; if the client is built
    the only further event is the wrong-action error, and the process
    exits with status 1 in the unchanged world, with no cancel and no
    client close in the trace.  (If the client cannot be built the
    process has already exited with that error.) *)
Theorem wrong_action_exits_after_session f w :
  Loader.mandatoryFilled f = true ->
  Loader.credentialGiven f = true ->
  gostrings.EqualFold (Loader.ActionType f) Loader.Upload = false ->
  gostrings.EqualFold (Loader.ActionType f) Loader.Download = false ->
  Loader.main f w =
  match clientErr (env w) (Loader.optionOf f) with
  | None =>
    (Loader.sessionTrace f
     ++ [ELog LogErr "FATAL ERROR: Wrong action parameter specified!"],
     w, Exit 1)
  | Some msg =>
    (Loader.sessionTrace f
     ++ [ELog LogErr ("FATAL ERROR: Cannot create new storage client! ("
                      +:+ msg +:+ ")")],
     w, Exit 1)
  end
  /\ (exists pre,
         Loader.sessionTrace f =
         pre ++ [EWithTimeout
                   (Loader.timeoutDuration (wrap64 (Loader.TimeoutValue f)));
                 ENewClient (Loader.optionOf f)])
  /\ released (trace (Loader.main f w)) = (0, 0, 0)%nat.
Proof.
  intros Hm Hc Hu Hd.
  assert (Hrun : Loader.main f w =
                 match clientErr (env w) (Loader.optionOf f) with
                 | None =>
                   (Loader.sessionTrace f
                    ++ [ELog LogErr "FATAL ERROR: Wrong action parameter specified!"],
                    w, Exit 1)
                 | Some msg =>
                   (Loader.sessionTrace f
                    ++ [ELog LogErr ("FATAL ERROR: Cannot create new storage client! ("
                                     +:+ msg +:+ ")")],
                    w, Exit 1)
                 end).
  { apply wp_eq. apply Loader_main_session; [exact Hm | exact Hc |].
    destruct (clientErr (env w) (Loader.optionOf f)); [reflexivity|].
    unfold Loader.dispatch. rewrite Hu, Hd. wp_run.
    cbn [app]. reflexivity. }
  split; [exact Hrun|]. split; [apply sessionTrace_ends_with_client|].
  rewrite Hrun.
  destruct (clientErr (env w) (Loader.optionOf f)); unfold trace;
    cbn [fst]; rewrite released_app, sessionTrace_released; reflexivity.
Qed.

Lemma wrong_action_exits_after_session_witness :
  Loader.main (loaderFlags "delete" "a.txt" "k.json" false false) smallWorld =
  ([ELog LogAlways "HELLO MSG: Welcome to GCP-Bucket-Loader v2.1 by EY!";
    EWithTimeout 60000000000;
    ENewClient (WithCredentialsFile "k.json");
    ELog LogErr "FATAL ERROR: Wrong action parameter specified!"],
   smallWorld, Exit 1).
Proof.
  apply (proj1 (wrong_action_exits_after_session
                  (loaderFlags "delete" "a.txt" "k.json" false false) smallWorld
                  eq_refl eq_refl eq_refl eq_refl)).
Defined.

(** ** Anonymous mode *)

Lemma no_session_unauthenticated t :
  Forall (fun e => isSession e = false) t -> Forall unauthenticated t.
Proof.
  intros H. eapply Forall_impl; [exact H|].
  intros [] He; try exact I. discriminate.
Qed.

(** With [-public] the run does not depend on a non-empty [-key]. *)
Lemma public_main_ignores_key f k1 k2 :
  Loader.PublicRequest f = true -> k1 <> "" -> k2 <> "" ->
  Loader.main (Loader.withKeyPath k1 f) = Loader.main (Loader.withKeyPath k2 f).
Proof.
  intros Hp H1 H2.
  apply String.eqb_neq in H1, H2.
  unfold Loader.main, Loader.dispatch, Loader.createClient,
    Loader.uploadFile, Loader.downloadFile.
  cbn [Loader.withKeyPath Loader.ActionType Loader.FilePath Loader.BucketName
       Loader.ObjectPath Loader.KeyPath Loader.ContentType Loader.ExtraChecks
       Loader.PublicRequest Loader.TimeoutValue].
  rewrite Hp, H1, H2. reflexivity.
Qed.

(** C2, as the code has it.  With [-public] set and non-empty keys [k1]
    and [k2], the runs with either key are the same run (same trace,
    same final world, same outcome) and no client is built with
    credentials.  When moreover the mandatory flags are filled, the
    warning is printed and the client is built without authentication:
    the run begins with the greeting, the warning, the creation of the
    context and [storage.NewClient(ctx, option.WithoutAuthentication())]. *)
Theorem public_key_is_discarded f w k1 k2 :
  Loader.PublicRequest f = true -> k1 <> "" -> k2 <> "" ->
  Loader.main (Loader.withKeyPath k1 f) w = Loader.main (Loader.withKeyPath k2 f) w
  /\ Forall unauthenticated (trace (Loader.main (Loader.withKeyPath k1 f) w))
  /\ (Loader.mandatoryFilled f = true ->
      exists rest,
        trace (Loader.main (Loader.withKeyPath k1 f) w) =
        [ELog LogAlways "HELLO MSG: Welcome to GCP-Bucket-Loader v2.1 by EY!";
         ELog LogWarn
           "WARNING: Key parameter is unnessary and discarded when public is set!";
         EWithTimeout (Loader.timeoutDuration (wrap64 (Loader.TimeoutValue f)));
         ENewClient WithoutAuthentication] ++ rest).
Proof.
  intros Hp H1 H2.
  split; [rewrite (public_main_ignores_key f k1 k2 Hp H1 H2); reflexivity|].
  set (g := Loader.withKeyPath k1 f).
  assert (Hk : (Loader.KeyPath g =? "")%string = false)
    by (apply String.eqb_neq; exact H1).
  assert (Hpg : Loader.PublicRequest g = true) by exact Hp.
  assert (Hc : Loader.credentialGiven g = true)
    by (unfold Loader.credentialGiven; rewrite Hpg; reflexivity).
  assert (Hs : Loader.sessionTrace g =
               [ELog LogAlways "HELLO MSG: Welcome to GCP-Bucket-Loader v2.1 by EY!";
                ELog LogWarn
                  "WARNING: Key parameter is unnessary and discarded when public is set!";
                EWithTimeout (Loader.timeoutDuration (wrap64 (Loader.TimeoutValue f)));
                ENewClient WithoutAuthentication]).
  { unfold Loader.sessionTrace, Loader.optionOf. rewrite Hpg, Hk. reflexivity. }
  assert (Hu : Forall unauthenticated (Loader.sessionTrace g))
    by (rewrite Hs; repeat constructor).
  destruct (Loader.mandatoryFilled g) eqn:Hm.
  - assert (Hwp : wp (Loader.main g) w
                     (fun t _ _ =>
                        Forall unauthenticated t
                        /\ exists rest, t = Loader.sessionTrace g ++ rest)).
    { apply Loader_main_session; [exact Hm | exact Hc |].
      destruct (clientErr (env w) (Loader.optionOf g)).
      - split; [|eexists; reflexivity].
        apply Forall_app. split; [exact Hu | repeat constructor].
      - eapply wp_mono; [apply dispatch_creates_no_session|].
        intros t w' r Ht. apply no_session_unauthenticated in Ht.
        destruct r; (split; [|eexists; reflexivity]);
          (apply Forall_app; split; [exact Hu|]); [|exact Ht].
        apply Forall_app. split; [exact Ht | repeat constructor]. }
    destruct Hwp as [Ha [rest Hw]].
    split; [exact Ha|]. intros _. exists rest. rewrite <- Hs. exact Hw.
  - rewrite (Loader_missing_mandatory g w Hm).
    split; [repeat constructor | intros Hf; exfalso].
    change (Loader.mandatoryFilled f) with (Loader.mandatoryFilled g) in Hf.
    congruence.
Qed.

Lemma public_key_is_discarded_witness :
  Loader.main (Loader.withKeyPath "k1.json"
                 (loaderFlags "upload" "a.txt" "" false true)) smallWorld =
  Loader.main (Loader.withKeyPath "k2.json"
                 (loaderFlags "upload" "a.txt" "" false true)) smallWorld
  /\ exists rest,
      trace (Loader.main (Loader.withKeyPath "k1.json"
                            (loaderFlags "upload" "a.txt" "" false true))
                         smallWorld) =
      [ELog LogAlways "HELLO MSG: Welcome to GCP-Bucket-Loader v2.1 by EY!";
       ELog LogWarn
         "WARNING: Key parameter is unnessary and discarded when public is set!";
       EWithTimeout 60000000000;
       ENewClient WithoutAuthentication] ++ rest.
Proof.
  destruct (public_key_is_discarded (loaderFlags "upload" "a.txt" "" false true)
              smallWorld "k1.json" "k2.json" eq_refl) as (Hsame & _ & Hwarn);
    [discriminate | discriminate |].
  split; [exact Hsame | exact (Hwarn eq_refl)].
Defined.

(** C2 fails where a mandatory flag is empty: with [-public], a key
    and no [-file], the run ends at the first check; it prints no
    warning and builds no client at all. *)
Lemma public_run_without_warning :
  let f := loaderFlags "upload" "" "k.json" false true in
  Loader.PublicRequest f = true
  /\ Loader.KeyPath f <> ""
  /\ Loader.main f smallWorld =
     ([ELog LogAlways "HELLO MSG: Welcome to GCP-Bucket-Loader v2.1 by EY!";
       ELog LogErr "FATAL ERROR: All mandatory parameters must be filled!"],
      smallWorld, Exit 1)
  /\ ~ ELog LogWarn
         "WARNING: Key parameter is unnessary and discarded when public is set!"
       ∈ trace (Loader.main f smallWorld)
  /\ count isNewClient (trace (Loader.main f smallWorld)) = 0%nat.
Proof.
  cbv zeta. split; [reflexivity|]. split; [discriminate|].
  split; [reflexivity|]. split; [|reflexivity].
  intros H. vm_compute in H.
  repeat (apply elem_of_cons in H as [H|H]; [discriminate|]).
  apply elem_of_nil in H. exact H.
Qed.

(** ** The content type of the upload *)

Lemma eqb_empty_unset (s : string) : negb (s =? "")%string = false -> "" = s.
Proof.
  intros H. apply negb_false_iff, String.eqb_eq in H. congruence.
Qed.

(** Membership of an event in a trace that is given event by event. *)
Ltac find_event :=
  cbn [app];
  repeat first [ apply list_elem_of_here
               | apply list_elem_of_further
               | apply elem_of_app; right ].












(** ** The report of a successful upload *)

Lemma Loader_upload_reports f w data :
  gostrings.EqualFold (Loader.ActionType f) Loader.Upload = true ->
  Loader.ExtraChecks f = false ->
  files w !! Loader.FilePath f = Some (Regular data) ->
  result (Loader.main f w) = Ret tt ->
  ELog LogInfo ("SUCCESS: Object uploaded to GCP Bucket. (Written Bytes: "
                +:+ FormatInt (Z.of_nat (length data)) +:+ ")")
  ∈ trace (Loader.main f w)
  /\ EWrite (Loader.ContentType f) (Z.of_nat (length data))
     ∈ trace (Loader.main f w).
Proof.
  intros Hu He Hf.
  destruct (Loader.mandatoryFilled f) eqn:Hm;
    [|rewrite (Loader_missing_mandatory f w Hm); discriminate].
  destruct (Loader.credentialGiven f) eqn:Hc;
    [|rewrite (Loader_missing_credential f w Hm Hc); discriminate].
  set (report := ELog LogInfo _). set (write := EWrite _ _).
  change (wp (Loader.main f) w
            (fun t _ r => r = Ret tt -> report ∈ t /\ write ∈ t)).
  apply Loader_main_session; [exact Hm | exact Hc |].
  destruct (clientErr (env w) (Loader.optionOf f)); [discriminate|].
  unfold Loader.dispatch. rewrite Hu.
  wp_run.
  all: try discriminate.
  all: intros _; subst report write; split.
  all: try match goal with
           | H : negb (?s =? "")%string = false |- _ =>
             rewrite <- (eqb_empty_unset s H)
           end.
  all: rewrite Hf; find_event.
Qed.

Lemma Uploader_upload_reports f w data :
  Uploader.ExtraChecks f = false ->
  files w !! Uploader.FilePath f = Some (Regular data) ->
  result (Uploader.main f w) = Ret tt ->
  ELog LogInfo ("SUCCESS: Object uploaded to GCP Bucket. (Written Bytes: "
                +:+ FormatInt (Z.of_nat (length data)) +:+ ")")
  ∈ trace (Uploader.main f w)
  /\ EWrite (Uploader.ContentType f) (Z.of_nat (length data))
     ∈ trace (Uploader.main f w).
Proof.
  intros He Hf.
  set (report := ELog LogInfo _). set (write := EWrite _ _).
  change (wp (Uploader.main f) w
            (fun t _ r => r = Ret tt -> report ∈ t /\ write ∈ t)).
  wp_run.
  all: try discriminate.
  all: intros _; subst report write; split.
  all: try match goal with
           | H : negb (?s =? "")%string = false |- _ =>
             rewrite <- (eqb_empty_unset s H)
           end.
  all: rewrite Hf; find_event.
Qed.

(** C9.  A run of either program that uploads with extra checks off
    and returns from [main], on a local regular file of N bytes, has
    streamed N bytes to the remote writer and has printed the success
    line with "Written Bytes: N". *)
Theorem upload_reports_bytes_written :
  (forall (f : Loader.AppFlagStruct) w data,
      gostrings.EqualFold (Loader.ActionType f) Loader.Upload = true ->
      Loader.ExtraChecks f = false ->
      files w !! Loader.FilePath f = Some (Regular data) ->
      result (Loader.main f w) = Ret tt ->
      ELog LogInfo ("SUCCESS: Object uploaded to GCP Bucket. (Written Bytes: "
                    +:+ FormatInt (Z.of_nat (length data)) +:+ ")")
      ∈ trace (Loader.main f w)
      /\ EWrite (Loader.ContentType f) (Z.of_nat (length data))
         ∈ trace (Loader.main f w))
  /\
  (forall (f : Uploader.AppFlagStruct) w data,
      Uploader.ExtraChecks f = false ->
      files w !! Uploader.FilePath f = Some (Regular data) ->
      result (Uploader.main f w) = Ret tt ->
      ELog LogInfo ("SUCCESS: Object uploaded to GCP Bucket. (Written Bytes: "
                    +:+ FormatInt (Z.of_nat (length data)) +:+ ")")
      ∈ trace (Uploader.main f w)
      /\ EWrite (Uploader.ContentType f) (Z.of_nat (length data))
         ∈ trace (Uploader.main f w)).
Proof.
  split; [exact Loader_upload_reports | exact Uploader_upload_reports].
Qed.

Lemma upload_reports_bytes_written_witness :
  ELog LogInfo "SUCCESS: Object uploaded to GCP Bucket. (Written Bytes: 2)"
  ∈ trace (Loader.main (loaderFlags "UPLOAD" "a.txt" "k.json" false false)
                       smallWorld)
  /\ ELog LogInfo "SUCCESS: Object uploaded to GCP Bucket. (Written Bytes: 2)"
     ∈ trace (Uploader.main (uploaderFlags "a.txt" "k.json" false) smallWorld).
Proof.
  split.
  - apply (proj1 upload_reports_bytes_written
             (loaderFlags "UPLOAD" "a.txt" "k.json" false false) smallWorld
             [104; 105]); reflexivity.
  - apply (proj2 upload_reports_bytes_written
             (uploaderFlags "a.txt" "k.json" false) smallWorld
             [104; 105]); reflexivity.
Defined.

(** ** A missing remote object *)

(** C6.  A download without extra checks whose local file can be
    created (and whose path is not taken by something that is no
    regular file), against an object that the bucket does not hold:
    the file is created or truncated, then the reader cannot be opened,
    the process prints that error and exits with status 1; afterwards
    the local file exists and is empty, and nothing was ever written
    to it. *)
Theorem download_of_missing_object_leaves_empty_file f sud path b o w :
  Loader.ExtraChecks f = false ->
  createErr (env w) path = None ->
  files w !! path <> Some Irregular ->
  objects w !! (b, o) = None ->
  let run := Loader.downloadFile f sud path b o w in
  result run = Exit 1
  /\ (exists pre msg,
         trace run =
         pre ++ [ECreate path; ENewReader b o;
                 ELog LogErr ("FATAL ERROR: Cannot create new reader! ("
                              +:+ msg +:+ ")")])
  /\ files (final run) !! path = Some (Regular [])
  /\ Forall noRead (trace run).
Proof.
  intros He Hc Hf Ho run. subst run.
  change (wp (Loader.downloadFile f sud path b o) w
            (fun t w' r =>
               r = Exit 1
               /\ (exists pre msg,
                      t = pre ++ [ECreate path; ENewReader b o;
                                  ELog LogErr
                                    ("FATAL ERROR: Cannot create new reader! ("
                                     +:+ msg +:+ ")")])
               /\ files w' !! path = Some (Regular [])
               /\ Forall noRead t)).
  wp_run.
  all: split; [reflexivity|].
  all: split; [cbn [app Error];
               first [ (exists []; eexists; reflexivity)
                     | (eexists [_]; eexists; reflexivity)
                     | (eexists [_; _]; eexists; reflexivity)
                     | (eexists [_; _; _]; eexists; reflexivity) ]|].
  all: split; [cbn [files setFiles]; apply lookup_insert_eq|].
  all: cbn [app]; repeat (apply List.Forall_cons; [exact I|]);
    apply List.Forall_nil.
Qed.

Lemma download_of_missing_object_leaves_empty_file_witness :
  result (Loader.downloadFile (loaderFlags "download" "out.txt" "k.json" false false)
            someSession "out.txt" "b" "missing" smallWorld) = Exit 1
  /\ files (final (Loader.downloadFile
                     (loaderFlags "download" "out.txt" "k.json" false false)
                     someSession "out.txt" "b" "missing" smallWorld))
     !! "out.txt" = Some (Regular []).
Proof.
  assert (Hf : files smallWorld !! "out.txt" <> Some Irregular)
    by (vm_compute; discriminate).
  destruct (download_of_missing_object_leaves_empty_file
              (loaderFlags "download" "out.txt" "k.json" false false)
              someSession "out.txt" "b" "missing" smallWorld
              eq_refl eq_refl Hf eq_refl) as (H1 & _ & H2 & _).
  split; assumption.
Defined.

(** C5.  With extra checks on, once the local file is open (upload) or
    created (download) and the bucket has been found:
    - if the object is absent, the upload prints a warning and goes on
      to open the remote writer, while the download prints "Object does
      not exist!" and exits with status 1;
    - if the metadata fetch fails otherwise, both print "Cannot fetch
      object info!" and exit with status 1. *)
Theorem missing_object_upload_warns_download_exits f sud file b o ct w :
  Loader.ExtraChecks f = true ->
  bucketAttrsErr (env w) = None ->
  b ∈ buckets w ->
  (forall n,
      files w !! file = Some n -> openErr (env w) file = None ->
      (objectAttrsErr (env w) = None -> objects w !! (b, o) = None ->
       exists post,
         trace (Loader.uploadFile f sud file b o ct w) =
         [EOpen file; EBucketAttrs b; EObjectAttrs b o;
          ELog LogWarn "WARNING: Object does not exist, going to create a new one.";
          ENewWriter b o] ++ post)
      /\ (forall msg,
             objectAttrsErr (env w) = Some msg ->
             Loader.uploadFile f sud file b o ct w =
             ([EOpen file; EBucketAttrs b; EObjectAttrs b o;
               ELog LogErr ("FATAL ERROR: Cannot fetch object info! ("
                            +:+ msg +:+ ")")],
              w, Exit 1)))
  /\
  (createErr (env w) file = None ->
   (objectAttrsErr (env w) = None -> objects w !! (b, o) = None ->
    result (Loader.downloadFile f sud file b o w) = Exit 1
    /\ exists pre,
        trace (Loader.downloadFile f sud file b o w) =
        pre ++ [EBucketAttrs b; EObjectAttrs b o;
                ELog LogErr "FATAL ERROR: Object does not exist!"])
   /\ (forall msg,
          objectAttrsErr (env w) = Some msg ->
          result (Loader.downloadFile f sud file b o w) = Exit 1
          /\ exists pre,
              trace (Loader.downloadFile f sud file b o w) =
              pre ++ [EBucketAttrs b; EObjectAttrs b o;
                      ELog LogErr ("FATAL ERROR: Cannot fetch object info! ("
                                   +:+ msg +:+ ")")])).
Proof.
  intros He Hb Hin. split.
  - intros n Hf Hop. split.
    + intros Ha Ho.
      change (wp (Loader.uploadFile f sud file b o ct) w
                (fun t _ _ =>
                   exists post,
                     t = [EOpen file; EBucketAttrs b; EObjectAttrs b o;
                          ELog LogWarn
                            "WARNING: Object does not exist, going to create a new one.";
                          ENewWriter b o] ++ post)).
      wp_run.
      all: try (apply wp_any; intros).
      all: cbn [app]; eexists; reflexivity.
    + intros msg Ha. apply wp_eq. wp_run. reflexivity.
  - intros Hc. split.
    + intros Ha Ho.
      change (wp (Loader.downloadFile f sud file b o) w
                (fun t _ r =>
                   r = Exit 1
                   /\ exists pre,
                       t = pre ++ [EBucketAttrs b; EObjectAttrs b o;
                                   ELog LogErr "FATAL ERROR: Object does not exist!"])).
      wp_run.
      all: split; [reflexivity|]; cbn [app].
      all: first [ (eexists [_; _]; reflexivity)
                 | (eexists [_; _; _]; reflexivity) ].
    + intros msg Ha.
      change (wp (Loader.downloadFile f sud file b o) w
                (fun t _ r =>
                   r = Exit 1
                   /\ exists pre,
                       t = pre ++ [EBucketAttrs b; EObjectAttrs b o;
                                   ELog LogErr
                                     ("FATAL ERROR: Cannot fetch object info! ("
                                      +:+ msg +:+ ")")])).
      wp_run.
      all: split; [reflexivity|]; cbn [app Error].
      all: first [ (eexists [_; _]; reflexivity)
                 | (eexists [_; _; _]; reflexivity) ].
Qed.

Lemma missing_object_upload_warns_download_exits_witness :
  (exists post,
      trace (Loader.uploadFile (loaderFlags "upload" "a.txt" "k.json" true false)
               someSession "a.txt" "b" "o" "text/plain" smallWorld) =
      [EOpen "a.txt"; EBucketAttrs "b"; EObjectAttrs "b" "o";
       ELog LogWarn "WARNING: Object does not exist, going to create a new one.";
       ENewWriter "b" "o"] ++ post)
  /\ result (Loader.downloadFile (loaderFlags "download" "out.txt" "k.json" true false)
               someSession "out.txt" "b" "o" smallWorld) = Exit 1.
Proof.
  assert (Hb : "b" ∈ buckets smallWorld) by (cbn [buckets smallWorld]; set_solver).
  split.
  - destruct (missing_object_upload_warns_download_exits
                (loaderFlags "upload" "a.txt" "k.json" true false)
                someSession "a.txt" "b" "o" "text/plain" smallWorld
                eq_refl eq_refl Hb) as [Hup _].
    destruct (Hup (Regular [104; 105]) eq_refl eq_refl) as [Hwarn _].
    exact (Hwarn eq_refl eq_refl).
  - destruct (missing_object_upload_warns_download_exits
                (loaderFlags "download" "out.txt" "k.json" true false)
                someSession "out.txt" "b" "o" "" smallWorld
                eq_refl eq_refl Hb) as [_ Hdown].
    destruct (Hdown eq_refl) as [Hmiss _].
    exact (proj1 (Hmiss eq_refl eq_refl)).
Defined.

(** ** Case folding against an ASCII word *)

Lemma bytesOf_nonneg s : Forall (fun b => 0 <= b) (bytesOf s).
Proof.
  unfold bytesOf. apply Forall_fmap, Forall_forall. intros c _. simpl. lia.
Qed.

Lemma lor_ge_l a b : 0 <= b -> a <= Z.lor a b.
Proof.
  intros Hb. pose proof (Z.sub_lor_l_same_l b a) as H.
  assert (0 <= Z.land b (Z.lnot a)) by (apply Z.land_nonneg; lia).
  lia.
Qed.

Lemma lor_ge_r a b : 0 <= a -> b <= Z.lor a b.
Proof. intros Ha. rewrite Z.lor_comm. apply lor_ge_l, Ha. Qed.

Lemma lor_lt_128 a b : 0 <= a < 128 -> 0 <= b < 128 -> Z.lor a b < 128.
Proof.
  intros Ha Hb.
  assert (Hn : 0 <= Z.lor a b) by (apply Z.lor_nonneg; lia).
  assert (Hs : Z.shiftr (Z.lor a b) 7 = 0).
  { rewrite Z.shiftr_lor, !Z.shiftr_div_pow2 by lia.
    rewrite !Z.div_small by lia. reflexivity. }
  rewrite Z.shiftr_div_pow2 in Hs by lia.
  apply Z.div_small_iff in Hs; lia.
Qed.

(** The test [sr|tr >= utf8.RuneSelf] against an ASCII [tr]. *)
Lemma runeSelf_test sr tr :
  0 <= sr -> 0 <= tr < 128 ->
  (utf8.RuneSelf <=? Z.lor sr tr) = (128 <=? sr).
Proof.
  intros Hs Ht. unfold utf8.RuneSelf.
  destruct (Z.leb_spec 128 sr) as [H|H].
  - apply Z.leb_le. pose proof (lor_ge_l sr tr). lia.
  - apply Z.leb_gt. apply lor_lt_128; lia.
Qed.

Ltac bools :=
  repeat match goal with
         | H : (_ <? _) = true |- _ => apply Z.ltb_lt in H
         | H : (_ <? _) = false |- _ => apply Z.ltb_ge in H
         | H : (_ <=? _) = true |- _ => apply Z.leb_le in H
         | H : (_ <=? _) = false |- _ => apply Z.leb_gt in H
         | H : (_ =? _) = true |- _ => apply Z.eqb_eq in H
         | H : (_ =? _) = false |- _ => apply Z.eqb_neq in H
         | H : _ || _ = false |- _ => apply orb_false_iff in H; destruct H
         | H : _ && _ = true |- _ => apply andb_true_iff in H; destruct H
         end.

Lemma land_mask_shift c k n :
  0 <= k -> 0 <= n ->
  Z.shiftl (Z.land c (Z.ones k)) n = (c mod 2 ^ k) * 2 ^ n.
Proof.
  intros Hk Hn. rewrite Z.land_ones by lia. apply Z.shiftl_mul_pow2, Hn.
Qed.

Ltac nonneg :=
  solve [ repeat (apply Z.lor_nonneg; split);
          first [ apply Z.land_nonneg; right; vm_compute; discriminate
                | Z.div_mod_to_equations; lia ] ].

(** [128 <= x] for a rune [x] assembled with [Z.lor]: one of the
    pieces is large enough. *)
Ltac large :=
  first [ solve [Z.div_mod_to_equations; lia]
        | eapply Z.le_trans; [|apply lor_ge_l; nonneg]; large
        | eapply Z.le_trans; [|apply lor_ge_r; nonneg]; large ].

(** A leading byte outside ASCII never decodes to an ASCII rune. *)
Lemma DecodeRune_nonascii c0 rest :
  128 <= c0 -> 128 <= (utf8.DecodeRuneInString (c0 :: rest)).1.
Proof.
  intros H0. unfold utf8.DecodeRuneInString, utf8.first.
  repeat case_match; bools; subst; simpl fst;
    try (unfold utf8.RuneError; lia); try lia.
  all: try (unfold utf8.as_, utf8.xx, utf8.s1, utf8.s2, utf8.s3, utf8.s4,
            utf8.s5, utf8.s6, utf8.s7 in *; simpl in *; lia).
  all: match goal with
       | H : utf8.acceptRanges _ = _ |- _ => vm_compute in H; injection H as <- <-
       end.
  all: unfold utf8.mask2, utf8.mask3, utf8.mask4, utf8.maskx, utf8.locb,
         utf8.hicb in *.
  all: change 0x1F with (Z.ones 5); change 0x0F with (Z.ones 4);
    change 0x07 with (Z.ones 3); change 0x3F with (Z.ones 6).
  all: rewrite ?land_mask_shift by lia; rewrite ?Z.land_ones by lia.
  all: large.
Qed.

Lemma SimpleFold_lower c : plainLower c -> unicode.SimpleFold c = c - 0x20.
Proof.
  intros (Hc & Hk & Hs). unfold unicode.SimpleFold.
  repeat case_match; bools; lia.
Qed.

Lemma SimpleFold_upper c : plainLower c -> unicode.SimpleFold (c - 0x20) = c.
Proof.
  intros (Hc & Hk & Hs). unfold unicode.SimpleFold.
  repeat case_match; bools; lia.
Qed.

(** At a byte outside ASCII the Unicode loop rejects a plain letter. *)
Lemma equalFoldUnicode_nonascii fuel c0 s' tr t' :
  plainLower tr -> 128 <= c0 ->
  gostrings.equalFoldUnicode (S fuel) (c0 :: s') (tr :: t') = false.
Proof.
  intros Hp H0. pose proof Hp as (Hc & Hk & Hs).
  pose proof (DecodeRune_nonascii c0 s' H0) as Hr.
  cbn [gostrings.equalFoldUnicode].
  destruct (utf8.DecodeRuneInString (c0 :: s')) as [r size]. simpl in Hr.
  unfold utf8.RuneSelf.
  replace (tr <? 128) with true by (symmetry; apply Z.ltb_lt; lia).
  replace (tr =? r) with false by (symmetry; apply Z.eqb_neq; lia).
  replace (tr <? r) with true by (symmetry; apply Z.ltb_lt; lia).
  replace (r <? 128) with false by (symmetry; apply Z.ltb_ge; lia).
  rewrite (SimpleFold_lower tr Hp).
  cbn [gostrings.foldUpTo].
  replace (tr - 32 =? tr) with false by (symmetry; apply Z.eqb_neq; lia).
  replace (tr - 32 <? r) with true by (symmetry; apply Z.ltb_lt; lia).
  cbn [negb andb]. rewrite (SimpleFold_upper tr Hp), Z.eqb_refl.
  cbn [negb andb].
  replace (tr =? r) with false by (symmetry; apply Z.eqb_neq; lia).
  reflexivity.
Qed.

Lemma lowerByte_plain c : plainLower c -> lowerByte c = c.
Proof.
  intros (Hc & _). unfold lowerByte. repeat case_match; bools; lia.
Qed.

Lemma asciiPair_lower sr tr :
  plainLower tr -> sr <> tr ->
  gostrings.asciiPair sr tr = true <-> lowerByte sr = tr.
Proof.
  intros (Hc & _) Hne. unfold gostrings.asciiPair, lowerByte.
  repeat case_match; bools; split; intros; bools; try lia; try discriminate.
  all: try (apply andb_true_iff; split; [apply andb_true_iff; split|]).
  all: try (apply Z.leb_le; lia); try (apply Z.eqb_eq; lia).
  all: match goal with
       | H : (_, _) = (_, _) |- _ => injection H as <- <-
       end; bools; try lia.
Qed.

(** Against a word of plain lower-case letters, [EqualFold] accepts
    exactly the strings whose ASCII lower case is the word. *)
Lemma equalFoldBytes_plain t :
  Forall plainLower t ->
  forall s, Forall (fun b => 0 <= b) s ->
            gostrings.equalFoldBytes s t = true <-> lowerByte <$> s = t.
Proof.
  induction 1 as [|tr t' Hp Ht IH]; intros [|sr s'] Hs.
  - split; reflexivity.
  - split; discriminate.
  - split; discriminate.
  - apply Forall_cons in Hs as [Hsr Hs'].
    pose proof Hp as (Hc & _).
    cbn [gostrings.equalFoldBytes fmap list_fmap].
    rewrite runeSelf_test by lia.
    destruct (Z.leb_spec 128 sr) as [Hbig|Hsmall].
    + rewrite equalFoldUnicode_nonascii by assumption.
      split; [discriminate|]. intros [= Hl _].
      unfold lowerByte in Hl. repeat case_match; bools; lia.
    + destruct (Z.eqb_spec tr sr) as [->|Hne].
      * rewrite IH by assumption. rewrite lowerByte_plain by assumption.
        split; [intros ->; reflexivity | intros [= H]; exact H].
      * destruct (gostrings.asciiPair sr tr) eqn:Hpair.
        -- apply asciiPair_lower in Hpair; [|assumption|congruence].
           rewrite IH by assumption. rewrite Hpair.
           split; [intros ->; reflexivity | intros [= H]; exact H].
        -- split; [discriminate|]. intros [= Hl _].
           apply asciiPair_lower in Hl; [congruence|assumption|congruence].
Qed.

Lemma Upload_plain : Forall plainLower (bytesOf "upload").
Proof. repeat constructor; vm_compute; intuition discriminate. Qed.

Lemma Download_plain : Forall plainLower (bytesOf "download").
Proof. repeat constructor; vm_compute; intuition discriminate. Qed.

Lemma EqualFold_Upload a :
  gostrings.EqualFold a "upload" = true <-> caseVariant a "upload".
Proof.
  apply equalFoldBytes_plain; [apply Upload_plain | apply bytesOf_nonneg].
Qed.

Lemma EqualFold_Download a :
  gostrings.EqualFold a "download" = true <-> caseVariant a "download".
Proof.
  apply equalFoldBytes_plain; [apply Download_plain | apply bytesOf_nonneg].
Qed.

(** [EqualFold] is Unicode-aware: the Kelvin sign folds to [k]. *)
Example EqualFold_kelvin :
  gostrings.equalFoldBytes [0x75; 0xE2; 0x84; 0xAA] (bytesOf "uk") = true.
Proof. reflexivity. Qed.

(** ** The dispatch on the action *)

Lemma EqualFold_Download_not_Upload a :
  gostrings.EqualFold a Loader.Download = true ->
  gostrings.EqualFold a Loader.Upload = false.
Proof.
  intros Hd. apply EqualFold_Download in Hd.
  destruct (gostrings.EqualFold a Loader.Upload) eqn:Hu; [|reflexivity].
  apply EqualFold_Upload in Hu. unfold caseVariant in *.
  rewrite Hd in Hu. discriminate.
Qed.

(** Once both checks pass and the client is built, the run of [main]
    is the session prefix, then the run of the dispatch, then the
    farewell if the dispatch returns. *)
Lemma Loader_main_dispatch f w :
  Loader.mandatoryFilled f = true ->
  Loader.credentialGiven f = true ->
  clientErr (env w) (Loader.optionOf f) = None ->
  Loader.main f w =
  after (Loader.sessionTrace f) ((Loader.dispatch f (sessionOf f);; farewell) w).
Proof.
  intros Hm Hc He. apply wp_eq.
  apply Loader_main_session; [exact Hm | exact Hc |]. rewrite He.
  unfold wp, after, mbind, M_bind, bind, sessionOf, trace, final, result.
  destruct (Loader.dispatch f _ w) as [[t w'] [[]|c]]; reflexivity.
Qed.

(** The first thing an upload does is open the local file; the first
    thing a download does is look at the local path. *)
Lemma Loader_main_first_step f w :
  Loader.mandatoryFilled f = true ->
  Loader.credentialGiven f = true ->
  clientErr (env w) (Loader.optionOf f) = None ->
  (gostrings.EqualFold (Loader.ActionType f) Loader.Upload = true ->
   exists rest,
     trace (Loader.main f w)
     = Loader.sessionTrace f ++ EOpen (Loader.FilePath f) :: rest)
  /\ (gostrings.EqualFold (Loader.ActionType f) Loader.Download = true ->
      exists rest,
        trace (Loader.main f w)
        = Loader.sessionTrace f ++ EStat (Loader.FilePath f) :: rest).
Proof.
  intros Hm Hc He. split.
  - intros Hu.
    change (wp (Loader.main f) w
              (fun t _ _ =>
                 exists rest,
                   t = Loader.sessionTrace f ++ EOpen (Loader.FilePath f) :: rest)).
    apply Loader_main_session; [exact Hm | exact Hc |]. rewrite He.
    unfold Loader.dispatch. rewrite Hu.
    wp_run.
    all: cbn [app]; eexists; reflexivity.
  - intros Hd.
    pose proof (EqualFold_Download_not_Upload _ Hd) as Hu.
    change (wp (Loader.main f) w
              (fun t _ _ =>
                 exists rest,
                   t = Loader.sessionTrace f ++ EStat (Loader.FilePath f) :: rest)).
    apply Loader_main_session; [exact Hm | exact Hc |]. rewrite He.
    unfold Loader.dispatch. rewrite Hu, Hd.
    wp_run.
    all: cbn [app]; eexists; reflexivity.
Qed.

(** C8, as the code has it.  [strings.EqualFold] accepts against
    "upload" (against "download") exactly the case variants of that
    word.  In a run of [main] whose flags pass both checks and whose
    client is built: on a case variant of "upload" the run is the
    session prefix followed by the run of [uploadFile] (which begins by
    opening the local file) and the farewell; on a case variant of
    "download" it is the session prefix followed by the run of
    [downloadFile] (which begins by looking at the local path) and the
    farewell; on every other action the run is the session prefix
    followed by the wrong-action error, and the process exits with
    status 1 in the unchanged world. *)
Theorem action_selects_the_transfer :
  (forall a, gostrings.EqualFold a Loader.Upload = true <-> caseVariant a "upload")
  /\ (forall a, gostrings.EqualFold a Loader.Download = true
                <-> caseVariant a "download")
  /\ (forall f w,
         Loader.mandatoryFilled f = true ->
         Loader.credentialGiven f = true ->
         clientErr (env w) (Loader.optionOf f) = None ->
         (caseVariant (Loader.ActionType f) "upload" ->
          Loader.main f w =
          after (Loader.sessionTrace f)
            ((Loader.uploadFile f (sessionOf f) (Loader.FilePath f)
                (Loader.BucketName f) (Loader.ObjectPath f)
                (Loader.ContentType f);; farewell) w)
          /\ exists rest,
              trace (Loader.main f w)
              = Loader.sessionTrace f ++ EOpen (Loader.FilePath f) :: rest)
         /\ (caseVariant (Loader.ActionType f) "download" ->
             Loader.main f w =
             after (Loader.sessionTrace f)
               ((Loader.downloadFile f (sessionOf f) (Loader.FilePath f)
                   (Loader.BucketName f) (Loader.ObjectPath f);; farewell) w)
             /\ exists rest,
                 trace (Loader.main f w)
                 = Loader.sessionTrace f ++ EStat (Loader.FilePath f) :: rest)
         /\ (~ caseVariant (Loader.ActionType f) "upload" ->
             ~ caseVariant (Loader.ActionType f) "download" ->
             Loader.main f w =
             (Loader.sessionTrace f
              ++ [ELog LogErr "FATAL ERROR: Wrong action parameter specified!"],
              w, Exit 1))).
Proof.
  split; [exact EqualFold_Upload|]. split; [exact EqualFold_Download|].
  intros f w Hm Hc He.
  pose proof (Loader_main_dispatch f w Hm Hc He) as Hrun.
  pose proof (Loader_main_first_step f w Hm Hc He) as [Hopen Hstat].
  split; [|split].
  - intros H. apply EqualFold_Upload in H. split; [|exact (Hopen H)].
    rewrite Hrun. unfold Loader.dispatch, Loader.Upload. rewrite H. reflexivity.
  - intros H. apply EqualFold_Download in H. split; [|exact (Hstat H)].
    rewrite Hrun. unfold Loader.dispatch.
    rewrite (EqualFold_Download_not_Upload _ H).
    unfold Loader.Download. rewrite H. reflexivity.
  - intros Hu Hd. rewrite Hrun. unfold Loader.dispatch, Loader.Upload, Loader.Download.
    destruct (gostrings.EqualFold (Loader.ActionType f) "upload") eqn:Eu;
      [apply EqualFold_Upload in Eu; contradiction|].
    destruct (gostrings.EqualFold (Loader.ActionType f) "download") eqn:Ed;
      [apply EqualFold_Download in Ed; contradiction|].
    reflexivity.
Qed.

Lemma action_selects_the_transfer_witness :
  (exists rest,
      trace (Loader.main (loaderFlags "UpLoad" "a.txt" "k.json" false false)
                         smallWorld)
      = [ELog LogAlways "HELLO MSG: Welcome to GCP-Bucket-Loader v2.1 by EY!";
         EWithTimeout 60000000000;
         ENewClient (WithCredentialsFile "k.json")]
        ++ EOpen "a.txt" :: rest)
  /\ (exists rest,
         trace (Loader.main (loaderFlags "DOWNload" "a.txt" "k.json" false false)
                            smallWorld)
         = [ELog LogAlways "HELLO MSG: Welcome to GCP-Bucket-Loader v2.1 by EY!";
            EWithTimeout 60000000000;
            ENewClient (WithCredentialsFile "k.json")]
           ++ EStat "a.txt" :: rest)
  /\ Loader.main (loaderFlags "delete" "a.txt" "k.json" false false) smallWorld
     = ([ELog LogAlways "HELLO MSG: Welcome to GCP-Bucket-Loader v2.1 by EY!";
         EWithTimeout 60000000000;
         ENewClient (WithCredentialsFile "k.json");
         ELog LogErr "FATAL ERROR: Wrong action parameter specified!"],
        smallWorld, Exit 1).
Proof.
  destruct action_selects_the_transfer as (_ & _ & H).
  split; [|split].
  - destruct (H (loaderFlags "UpLoad" "a.txt" "k.json" false false) smallWorld
                eq_refl eq_refl eq_refl) as (Hu & _ & _).
    exact (proj2 (Hu eq_refl)).
  - destruct (H (loaderFlags "DOWNload" "a.txt" "k.json" false false) smallWorld
                eq_refl eq_refl eq_refl) as (_ & Hd & _).
    exact (proj2 (Hd eq_refl)).
  - destruct (H (loaderFlags "delete" "a.txt" "k.json" false false) smallWorld
                eq_refl eq_refl eq_refl) as (_ & _ & Hw).
    apply Hw; discriminate.
Defined.

(** C8 fails at the empty action: it is a case variant of neither
    word, and the run does not end with the wrong-action error but, at
    the first check, with the missing-parameter error. *)
Lemma empty_action_is_a_missing_parameter :
  let run := Loader.main (loaderFlags "" "a.txt" "k.json" false false)
                         smallWorld in
  ~ caseVariant "" "upload"
  /\ ~ caseVariant "" "download"
  /\ run =
     ([ELog LogAlways "HELLO MSG: Welcome to GCP-Bucket-Loader v2.1 by EY!";
       ELog LogErr "FATAL ERROR: All mandatory parameters must be filled!"],
      smallWorld, Exit 1)
  /\ ~ ELog LogErr "FATAL ERROR: Wrong action parameter specified!" ∈ trace run.
Proof.
  cbv zeta. split; [discriminate|]. split; [discriminate|].
  split; [reflexivity|].
  intros H. vm_compute in H.
  repeat (apply elem_of_cons in H as [H|H]; [discriminate|]).
  apply elem_of_nil in H. exact H.
Qed.

(** * Further properties of the programs *)

(** ** Runs of [main], case by case *)

(** A property of the run of the dual-direction [main] follows from the
    three ways the run can go: a mandatory flag is missing, the key is
    missing, or the session prefix is emitted. *)
Lemma Loader_main_cases f w Q :
  (Loader.mandatoryFilled f = false ->
   Q [ELog LogAlways "HELLO MSG: Welcome to GCP-Bucket-Loader v2.1 by EY!";
      ELog LogErr "FATAL ERROR: All mandatory parameters must be filled!"]
     w (Exit 1)) ->
  (Loader.mandatoryFilled f = true -> Loader.credentialGiven f = false ->
   Q [ELog LogAlways "HELLO MSG: Welcome to GCP-Bucket-Loader v2.1 by EY!";
      ELog LogErr "FATAL ERROR: Key parameter is mandatory when public is not set!"]
     w (Exit 1)) ->
  (Loader.mandatoryFilled f = true -> Loader.credentialGiven f = true ->
   match clientErr (env w) (Loader.optionOf f) with
   | Some msg =>
     Q (Loader.sessionTrace f
        ++ [ELog LogErr ("FATAL ERROR: Cannot create new storage client! ("
                         +:+ msg +:+ ")")]) w (Exit 1)
   | None =>
     wp (Loader.dispatch f
           {| Loader.ctx := Loader.timeoutDuration (wrap64 (Loader.TimeoutValue f));
              Loader.cancel := emit ECancel;
              Loader.client := Loader.optionOf f |})
        w (fun t w' r =>
             match r with
             | Ret _ =>
               Q (Loader.sessionTrace f ++ t
                  ++ [ELog LogAlways ("BYE MSG: All done in "
                                      +:+ elapsed (env w') +:+ "s, bye!")])
                 w' (Ret tt)
             | Exit c => Q (Loader.sessionTrace f ++ t) w' (Exit c)
             end)
   end) ->
  wp (Loader.main f) w Q.
Proof.
  intros H1 H2 H3.
  destruct (Loader.mandatoryFilled f) eqn:Hm.
  - destruct (Loader.credentialGiven f) eqn:Hc.
    + apply Loader_main_session; [exact Hm | exact Hc |].
      apply H3; reflexivity.
    + unfold wp. rewrite (Loader_missing_credential f w Hm Hc).
      apply H2; reflexivity.
  - unfold wp. rewrite (Loader_missing_mandatory f w Hm).
    apply H1; reflexivity.
Qed.

(** ** Errors before the transfer *)

(** X1.  With the mandatory flags filled, [-public] off and no [-key],
    the dual-direction program prints the greeting and the
    key-is-mandatory error and exits with status 1 in the unchanged
    world: no context and no client is created. *)
Theorem missing_key_exits_before_session (f : Loader.AppFlagStruct) w :
  Loader.mandatoryFilled f = true ->
  Loader.PublicRequest f = false ->
  Loader.KeyPath f = "" ->
  Loader.main f w =
  ([ELog LogAlways "HELLO MSG: Welcome to GCP-Bucket-Loader v2.1 by EY!";
    ELog LogErr "FATAL ERROR: Key parameter is mandatory when public is not set!"],
   w, Exit 1).
Proof.
  intros Hm Hp Hk. apply Loader_missing_credential; [exact Hm|].
  unfold Loader.credentialGiven. rewrite Hp, Hk. reflexivity.
Qed.

Lemma missing_key_exits_before_session_witness :
  Loader.main (loaderFlags "upload" "a.txt" "" false false) smallWorld =
  ([ELog LogAlways "HELLO MSG: Welcome to GCP-Bucket-Loader v2.1 by EY!";
    ELog LogErr "FATAL ERROR: Key parameter is mandatory when public is not set!"],
   smallWorld, Exit 1).
Proof.
  apply (missing_key_exits_before_session
           (loaderFlags "upload" "a.txt" "" false false) smallWorld);
    reflexivity.
Defined.

(** X2.  When the storage client cannot be built, either program
    prints the cannot-create-client error with the text of the failure
    and exits with status 1 right after the attempt: no local file is
    opened, no remote call is made, the world is unchanged. *)
Theorem client_failure_exits_before_transfer :
  (forall (f : Loader.AppFlagStruct) w msg,
      Loader.mandatoryFilled f = true ->
      Loader.credentialGiven f = true ->
      clientErr (env w) (Loader.optionOf f) = Some msg ->
      Loader.main f w =
      (Loader.sessionTrace f
       ++ [ELog LogErr ("FATAL ERROR: Cannot create new storage client! ("
                        +:+ msg +:+ ")")],
       w, Exit 1))
  /\
  (forall (f : Uploader.AppFlagStruct) w msg,
      Uploader.mandatoryFilled f = true ->
      clientErr (env w) (WithCredentialsFile (Uploader.KeyPath f)) = Some msg ->
      Uploader.main f w =
      ([ELog LogAlways "HELLO MSG: Welcome to GCP-Bucket-Uploader v1.0 by EY!";
        EWithTimeout 60000000000;
        ENewClient (WithCredentialsFile (Uploader.KeyPath f));
        ELog LogErr ("FATAL ERROR: Cannot create new storage client! ("
                     +:+ msg +:+ ")")],
       w, Exit 1)).
Proof.
  split.
  - intros f w msg Hm Hc He. apply wp_eq.
    apply Loader_main_session; [exact Hm | exact Hc |]. rewrite He. reflexivity.
  - intros f w msg Hm He. unfold Uploader.mandatoryFilled in Hm.
    apply negb_true_iff in Hm. apply wp_eq. unfold Uploader.main.
    rewrite Hm. wp_run. reflexivity.
Qed.

Lemma client_failure_exits_before_transfer_witness :
  result (Loader.main (loaderFlags "upload" "a.txt" "k.json" false false)
                      offlineWorld) = Exit 1
  /\ final (Uploader.main (uploaderFlags "a.txt" "k.json" false) offlineWorld)
     = offlineWorld.
Proof.
  destruct client_failure_exits_before_transfer as [HL HU].
  split.
  - rewrite (HL (loaderFlags "upload" "a.txt" "k.json" false false)
                offlineWorld "dial tcp: no route to host"
                eq_refl eq_refl eq_refl).
    reflexivity.
  - rewrite (HU (uploaderFlags "a.txt" "k.json" false)
                offlineWorld "dial tcp: no route to host" eq_refl eq_refl).
    reflexivity.
Defined.

(** X3.  An upload whose local file is absent or cannot be opened
    prints the cannot-open error and exits with status 1 straight
    after [os.Open]: the bucket is never contacted and the world is
    unchanged (both programs). *)
Theorem upload_without_local_file_exits_before_remote :
  (forall (f : Loader.AppFlagStruct) w,
      Loader.mandatoryFilled f = true ->
      Loader.credentialGiven f = true ->
      clientErr (env w) (Loader.optionOf f) = None ->
      gostrings.EqualFold (Loader.ActionType f) Loader.Upload = true ->
      files w !! Loader.FilePath f = None
      \/ (exists msg, openErr (env w) (Loader.FilePath f) = Some msg) ->
      exists msg,
        Loader.main f w =
        (Loader.sessionTrace f
         ++ [EOpen (Loader.FilePath f);
             ELog LogErr ("FATAL ERROR: Cannot open requested file! ("
                          +:+ msg +:+ ")")],
         w, Exit 1))
  /\
  (forall (f : Uploader.AppFlagStruct) w,
      Uploader.mandatoryFilled f = true ->
      clientErr (env w) (WithCredentialsFile (Uploader.KeyPath f)) = None ->
      files w !! Uploader.FilePath f = None
      \/ (exists msg, openErr (env w) (Uploader.FilePath f) = Some msg) ->
      exists msg,
        Uploader.main f w =
        ([ELog LogAlways "HELLO MSG: Welcome to GCP-Bucket-Uploader v1.0 by EY!";
          EWithTimeout 60000000000;
          ENewClient (WithCredentialsFile (Uploader.KeyPath f));
          EOpen (Uploader.FilePath f);
          ELog LogErr ("FATAL ERROR: Cannot open requested file! ("
                       +:+ msg +:+ ")")],
         w, Exit 1)).
Proof.
  split.
  - intros f w Hm Hc He Hu Hopen.
    destruct (files w !! Loader.FilePath f) as [n|] eqn:Hf.
    + destruct Hopen as [Hopen|[msg Ho]]; [discriminate|].
      exists msg. apply wp_eq.
      apply Loader_main_session; [exact Hm | exact Hc |]. rewrite He.
      unfold Loader.dispatch. rewrite Hu. wp_run. reflexivity.
    + eexists. apply wp_eq.
      apply Loader_main_session; [exact Hm | exact Hc |]. rewrite He.
      unfold Loader.dispatch. rewrite Hu. wp_run. reflexivity.
  - intros f w Hm He Hopen. unfold Uploader.mandatoryFilled in Hm.
    apply negb_true_iff in Hm.
    destruct (files w !! Uploader.FilePath f) as [n|] eqn:Hf.
    + destruct Hopen as [Hopen|[msg Ho]]; [discriminate|].
      exists msg. apply wp_eq. unfold Uploader.main. rewrite Hm.
      wp_run. reflexivity.
    + eexists. apply wp_eq. unfold Uploader.main. rewrite Hm.
      wp_run. reflexivity.
Qed.

Lemma upload_without_local_file_exits_before_remote_witness :
  final (Loader.main (loaderFlags "upload" "missing.txt" "k.json" true false)
                     smallWorld) = smallWorld
  /\ final (Uploader.main (uploaderFlags "missing.txt" "k.json" true) smallWorld)
     = smallWorld.
Proof.
  destruct upload_without_local_file_exits_before_remote as [HL HU].
  split.
  - destruct (HL (loaderFlags "upload" "missing.txt" "k.json" true false)
                 smallWorld eq_refl eq_refl eq_refl eq_refl
                 (or_introl eq_refl)) as [msg ->].
    reflexivity.
  - destruct (HU (uploaderFlags "missing.txt" "k.json" true)
                 smallWorld eq_refl eq_refl (or_introl eq_refl)) as [msg ->].
    reflexivity.
Defined.

(** ** Extra checks off *)

Ltac all_trivial :=
  cbn [app]; repeat (apply List.Forall_cons; [exact I|]);
  try apply List.Forall_nil.

(** X4.  With extra checks off, no run of either program fetches
    bucket or object metadata. *)
Theorem no_metadata_fetch_without_extra_checks :
  (forall (f : Loader.AppFlagStruct) w,
      Loader.ExtraChecks f = false ->
      Forall noMetadata (trace (Loader.main f w)))
  /\
  (forall (f : Uploader.AppFlagStruct) w,
      Uploader.ExtraChecks f = false ->
      Forall noMetadata (trace (Uploader.main f w))).
Proof.
  split.
  - intros f w He. apply Loader_main_Forall; try (intros; exact I).
    intros ctx client w'. unfold Loader.dispatch.
    destruct (gostrings.EqualFold _ Loader.Upload);
      [|destruct (gostrings.EqualFold _ Loader.Download)].
    all: wp_run.
    all: all_trivial.
  - intros f w He.
    change (wp (Uploader.main f) w (fun t _ _ => Forall noMetadata t)).
    wp_run.
    all: all_trivial.
Qed.

Lemma no_metadata_fetch_without_extra_checks_witness :
  Forall noMetadata
    (trace (Loader.main (loaderFlags "upload" "a.txt" "k.json" false false)
                        smallWorld))
  /\ Forall noMetadata
       (trace (Uploader.main (uploaderFlags "a.txt" "k.json" false) smallWorld)).
Proof.
  split.
  - apply (proj1 no_metadata_fetch_without_extra_checks
             (loaderFlags "upload" "a.txt" "k.json" false false) smallWorld).
    reflexivity.
  - apply (proj2 no_metadata_fetch_without_extra_checks
             (uploaderFlags "a.txt" "k.json" false) smallWorld).
    reflexivity.
Defined.

(** ** How a run ends *)

Lemma last_after {A} (l1 l2 : list A) x :
  last l2 = Some x -> last (l1 ++ l2) = Some x.
Proof. intros H. apply last_app_Some. left. exact H. Qed.

Lemma dispatch_exits_after_error_line f ctx client w :
  wp (Loader.dispatch f {| Loader.ctx := ctx; Loader.cancel := emit ECancel;
                           Loader.client := client |}) w
     (fun t _ r =>
        match r with
        | Ret _ => True
        | Exit c =>
          c = 1 /\ exists msg, last t = Some (ELog LogErr ("FATAL ERROR: " +:+ msg))
        end).
Proof.
  unfold Loader.dispatch.
  destruct (gostrings.EqualFold _ Loader.Upload);
    [|destruct (gostrings.EqualFold _ Loader.Download)].
  all: wp_run.
  all: try exact I.
  all: split; [reflexivity|]; cbn [app]; eexists; reflexivity.
Qed.

(** X5.  Once the command line is parsed, every run of either program
    ends in one of two ways: [main] returns and the last event of the
    run is the farewell line "BYE MSG: All done in <elapsed>s, bye!" on
    the always-shown channel, or the process exits with status 1 and
    the last event of the run is a line on the error channel that
    begins with "FATAL ERROR: ". *)
Theorem every_run_ends_with_its_line :
  (forall (f : Loader.AppFlagStruct) w,
      properEnd (trace (Loader.main f w)) (final (Loader.main f w))
        (result (Loader.main f w)))
  /\ (forall (f : Uploader.AppFlagStruct) w,
         properEnd (trace (Uploader.main f w)) (final (Uploader.main f w))
           (result (Uploader.main f w))).
Proof.
  split; intros f w.
  - change (wp (Loader.main f) w properEnd).
    apply Loader_main_cases.
    + intros _. split; [reflexivity | eexists; reflexivity].
    + intros _ _. split; [reflexivity | eexists; reflexivity].
    + intros _ _. destruct (clientErr (env w) (Loader.optionOf f)).
      * split; [reflexivity|]. eexists. rewrite last_snoc. reflexivity.
      * eapply wp_mono; [apply dispatch_exits_after_error_line|].
        intros t w' [[]|c] H.
        -- cbn [properEnd]. rewrite app_assoc. apply last_snoc.
        -- destruct H as [-> [msg H]]. split; [reflexivity|].
           exists msg. apply last_after, H.
  - change (wp (Uploader.main f) w properEnd).
    wp_run.
    all: cbn [app properEnd env setWriter setObjects];
      try (split; [reflexivity|]; eexists); reflexivity.
Qed.

(** ** What a transfer leaves behind *)

(** Facts on a file that was just created. *)
Ltac created :=
  repeat match goal with
         | H : <[_:=_]> _ !! _ = _ |- _ =>
           rewrite lookup_insert_eq in H; simplify_eq
         end.

Lemma Loader_upload_stores f w data :
  gostrings.EqualFold (Loader.ActionType f) Loader.Upload = true ->
  files w !! Loader.FilePath f = Some (Regular data) ->
  result (Loader.main f w) = Ret tt ->
  objects (final (Loader.main f w)) !! (Loader.BucketName f, Loader.ObjectPath f)
  = Some (uploaded (env w) (Loader.ContentType f) data)
  /\ files (final (Loader.main f w)) = files w
  /\ env (final (Loader.main f w)) = env w.
Proof.
  intros Hu Hf.
  destruct (Loader.mandatoryFilled f) eqn:Hm;
    [|rewrite (Loader_missing_mandatory f w Hm); discriminate].
  destruct (Loader.credentialGiven f) eqn:Hc;
    [|rewrite (Loader_missing_credential f w Hm Hc); discriminate].
  change (wp (Loader.main f) w
            (fun _ w' r =>
               r = Ret tt ->
               objects w' !! (Loader.BucketName f, Loader.ObjectPath f)
               = Some (uploaded (env w) (Loader.ContentType f) data)
               /\ files w' = files w /\ env w' = env w)).
  apply Loader_main_session; [exact Hm | exact Hc |].
  destruct (clientErr (env w) (Loader.optionOf f)); [discriminate|].
  unfold Loader.dispatch. rewrite Hu.
  wp_run.
  all: try discriminate.
  all: intros _; cbn [objects files env setWriter setObjects];
    repeat split; unfold uploaded.
  all: repeat match goal with
              | H : (_ =? _)%string = _ |- _ => rewrite H; clear H
              | H : negb (?s =? "")%string = _ |- _ =>
                destruct (s =? "")%string; try discriminate; clear H
              end.
  all: rewrite ?lookup_insert_eq, ?Hf; reflexivity.
Qed.

Lemma Uploader_upload_stores f w data :
  files w !! Uploader.FilePath f = Some (Regular data) ->
  result (Uploader.main f w) = Ret tt ->
  objects (final (Uploader.main f w))
    !! (Uploader.BucketName f, Uploader.ObjectPath f)
  = Some (uploaded (env w) (Uploader.ContentType f) data)
  /\ files (final (Uploader.main f w)) = files w
  /\ env (final (Uploader.main f w)) = env w.
Proof.
  intros Hf.
  change (wp (Uploader.main f) w
            (fun _ w' r =>
               r = Ret tt ->
               objects w' !! (Uploader.BucketName f, Uploader.ObjectPath f)
               = Some (uploaded (env w) (Uploader.ContentType f) data)
               /\ files w' = files w /\ env w' = env w)).
  wp_run.
  all: try discriminate.
  all: intros _; cbn [objects files env setWriter setObjects];
    repeat split; unfold uploaded.
  all: repeat match goal with
              | H : (_ =? _)%string = _ |- _ => rewrite H; clear H
              | H : negb (?s =? "")%string = _ |- _ =>
                destruct (s =? "")%string; try discriminate; clear H
              end.
  all: rewrite ?lookup_insert_eq, ?Hf; reflexivity.
Qed.

Lemma Loader_download_fetches f w obj :
  gostrings.EqualFold (Loader.ActionType f) Loader.Upload = false ->
  gostrings.EqualFold (Loader.ActionType f) Loader.Download = true ->
  objects w !! (Loader.BucketName f, Loader.ObjectPath f) = Some obj ->
  files w !! Loader.FilePath f <> Some Irregular ->
  result (Loader.main f w) = Ret tt ->
  files (final (Loader.main f w)) !! Loader.FilePath f
  = Some (Regular (objData obj))
  /\ ELog LogInfo
       ("SUCCESS: Object downloaded from GCP Bucket. (Written Bytes: "
        +:+ FormatInt (Z.of_nat (length (objData obj))) +:+ ")")
     ∈ trace (Loader.main f w).
Proof.
  intros Hu Hd Ho Hf.
  destruct (Loader.mandatoryFilled f) eqn:Hm;
    [|rewrite (Loader_missing_mandatory f w Hm); discriminate].
  destruct (Loader.credentialGiven f) eqn:Hc;
    [|rewrite (Loader_missing_credential f w Hm Hc); discriminate].
  set (report := ELog LogInfo _).
  change (wp (Loader.main f) w
            (fun t w' r =>
               r = Ret tt ->
               files w' !! Loader.FilePath f = Some (Regular (objData obj))
               /\ report ∈ t)).
  apply Loader_main_session; [exact Hm | exact Hc |].
  destruct (clientErr (env w) (Loader.optionOf f)); [discriminate|].
  unfold Loader.dispatch. rewrite Hu, Hd.
  wp_run.
  all: try discriminate.
  all: created.
  all: intros _; subst report; cbn [files setFiles]; split;
    [ rewrite lookup_insert_eq, drop_nil, app_nil_r; reflexivity
    | find_event ].
Qed.

(** X6.  When an upload of a regular local file returns, the bucket
    holds under the target name an object with exactly the bytes of
    the file and the size of the file, whatever was stored there
    before; its content type is the configured one when that is
    non-empty, and the one detected from the bytes otherwise; the local
    files are as they were (both programs). *)
Theorem returned_upload_stores_the_file :
  (forall (f : Loader.AppFlagStruct) w data,
      gostrings.EqualFold (Loader.ActionType f) Loader.Upload = true ->
      files w !! Loader.FilePath f = Some (Regular data) ->
      result (Loader.main f w) = Ret tt ->
      objects (final (Loader.main f w))
        !! (Loader.BucketName f, Loader.ObjectPath f)
      = Some (uploaded (env w) (Loader.ContentType f) data)
      /\ files (final (Loader.main f w)) = files w)
  /\
  (forall (f : Uploader.AppFlagStruct) w data,
      files w !! Uploader.FilePath f = Some (Regular data) ->
      result (Uploader.main f w) = Ret tt ->
      objects (final (Uploader.main f w))
        !! (Uploader.BucketName f, Uploader.ObjectPath f)
      = Some (uploaded (env w) (Uploader.ContentType f) data)
      /\ files (final (Uploader.main f w)) = files w).
Proof.
  split.
  - intros f w data Hu Hf Hr.
    destruct (Loader_upload_stores f w data Hu Hf Hr) as (H1 & H2 & _).
    split; assumption.
  - intros f w data Hf Hr.
    destruct (Uploader_upload_stores f w data Hf Hr) as (H1 & H2 & _).
    split; assumption.
Qed.

Lemma returned_upload_stores_the_file_witness :
  objects (final (Loader.main (loaderFlags "upload" "a.txt" "k.json" true false)
                              smallWorld)) !! ("b", "o")
  = Some (uploaded quietEnv "text/plain" [104; 105])
  /\ objects (final (Uploader.main (uploaderFlags "a.txt" "k.json" false)
                                   smallWorld)) !! ("b", "o")
     = Some (uploaded quietEnv "text/plain" [104; 105]).
Proof.
  destruct returned_upload_stores_the_file as [HL HU].
  split.
  - apply (HL (loaderFlags "upload" "a.txt" "k.json" true false) smallWorld
              [104; 105]); reflexivity.
  - apply (HU (uploaderFlags "a.txt" "k.json" false) smallWorld
              [104; 105]); reflexivity.
Defined.

(** X7.  When a download returns, the local file holds exactly the
    bytes of the object, whatever it held before, and the success line
    reports the size of the object as the bytes written. *)
Theorem returned_download_overwrites_the_file (f : Loader.AppFlagStruct) w obj :
  gostrings.EqualFold (Loader.ActionType f) Loader.Download = true ->
  objects w !! (Loader.BucketName f, Loader.ObjectPath f) = Some obj ->
  files w !! Loader.FilePath f <> Some Irregular ->
  result (Loader.main f w) = Ret tt ->
  files (final (Loader.main f w)) !! Loader.FilePath f
  = Some (Regular (objData obj))
  /\ ELog LogInfo
       ("SUCCESS: Object downloaded from GCP Bucket. (Written Bytes: "
        +:+ FormatInt (Z.of_nat (length (objData obj))) +:+ ")")
     ∈ trace (Loader.main f w).
Proof.
  intros Hd. apply Loader_download_fetches; [|exact Hd].
  apply EqualFold_Download_not_Upload, Hd.
Qed.

Lemma returned_download_overwrites_the_file_witness :
  files (final (Loader.main (loaderFlags "download" "out.txt" "k.json" true false)
                            storedWorld)) !! "out.txt"
  = Some (Regular [104; 101; 121]).
Proof.
  assert (Hf : files storedWorld !! "out.txt" <> Some Irregular)
    by (vm_compute; discriminate).
  apply (returned_download_overwrites_the_file
           (loaderFlags "download" "out.txt" "k.json" true false) storedWorld
           (uploaded quietEnv "text/plain" [104; 101; 121])
           eq_refl eq_refl Hf eq_refl).
Defined.

(** X8.  An upload that returns, followed by a download of the same
    bucket and object that returns, leaves in the downloaded file the
    bytes of the uploaded file. *)
Theorem upload_then_download_returns_the_bytes
    (f g : Loader.AppFlagStruct) w data :
  gostrings.EqualFold (Loader.ActionType f) Loader.Upload = true ->
  gostrings.EqualFold (Loader.ActionType g) Loader.Download = true ->
  Loader.BucketName g = Loader.BucketName f ->
  Loader.ObjectPath g = Loader.ObjectPath f ->
  files w !! Loader.FilePath f = Some (Regular data) ->
  files w !! Loader.FilePath g <> Some Irregular ->
  result (Loader.main f w) = Ret tt ->
  result (Loader.main g (final (Loader.main f w))) = Ret tt ->
  files (final (Loader.main g (final (Loader.main f w)))) !! Loader.FilePath g
  = Some (Regular data).
Proof.
  intros Hu Hd Hb Ho Hf Hg Hr1 Hr2.
  destruct (Loader_upload_stores f w data Hu Hf Hr1) as (Hobj & Hfiles & _).
  apply (Loader_download_fetches g (final (Loader.main f w))
           (uploaded (env w) (Loader.ContentType f) data)).
  - apply EqualFold_Download_not_Upload, Hd.
  - exact Hd.
  - rewrite Hb, Ho. exact Hobj.
  - rewrite Hfiles. exact Hg.
  - exact Hr2.
Qed.

Lemma upload_then_download_returns_the_bytes_witness :
  files (final (Loader.main
                  (loaderFlags "download" "copy.txt" "k.json" true false)
                  (final (Loader.main
                            (loaderFlags "upload" "a.txt" "k.json" true false)
                            smallWorld)))) !! "copy.txt"
  = Some (Regular [104; 105]).
Proof.
  assert (Hg : files smallWorld !! "copy.txt" <> Some Irregular)
    by (vm_compute; discriminate).
  apply (upload_then_download_returns_the_bytes
           (loaderFlags "upload" "a.txt" "k.json" true false)
           (loaderFlags "download" "copy.txt" "k.json" true false)
           smallWorld [104; 105]
           eq_refl eq_refl eq_refl eq_refl eq_refl Hg eq_refl eq_refl).
Defined.

(** ** What a transfer may change *)

Ltac committed :=
  repeat match goal with
         | H : <[_:=_]> _ !! _ = _ |- _ =>
           rewrite lookup_insert_eq in H; simplify_eq
         end.

(** The upload leaves the environment, the buckets and the local files
    as they are; it changes at most the target object. *)
Lemma Loader_uploadFile_frame f ctx client file b o ct w :
  wp (Loader.uploadFile f {| Loader.ctx := ctx; Loader.cancel := emit ECancel;
                             Loader.client := client |} file b o ct) w
     (fun _ w' _ =>
        env w' = env w /\ buckets w' = buckets w /\ files w' = files w
        /\ (objects w' = objects w
            \/ exists x, objects w' = <[(b, o) := x]> (objects w))).
Proof.
  wp_run.
  all: committed.
  all: cbn [env buckets files objects setWriter setObjects].
  all: repeat split; try reflexivity; try (left; reflexivity).
  all: right; eexists; reflexivity.
Qed.

Lemma Loader_downloadFile_frame f ctx client file b o w :
  wp (Loader.downloadFile f {| Loader.ctx := ctx; Loader.cancel := emit ECancel;
                               Loader.client := client |} file b o) w
     (fun _ w' _ =>
        env w' = env w /\ buckets w' = buckets w /\ objects w' = objects w
        /\ (files w' = files w
            \/ exists d, files w' = <[file := Regular d]> (files w))).
Proof.
  wp_run.
  all: created.
  all: cbn [env buckets files objects setFiles].
  all: repeat split; try reflexivity; try (left; reflexivity).
  all: right; rewrite ?insert_insert_eq; eexists; reflexivity.
Qed.

Lemma Uploader_main_frame f w :
  wp (Uploader.main f) w
     (fun _ w' _ =>
        env w' = env w /\ buckets w' = buckets w /\ files w' = files w
        /\ (objects w' = objects w
            \/ exists x,
                objects w' =
                <[(Uploader.BucketName f, Uploader.ObjectPath f) := x]> (objects w))).
Proof.
  wp_run.
  all: committed.
  all: cbn [env buckets files objects setWriter setObjects].
  all: repeat split; try reflexivity; try (left; reflexivity).
  all: right; eexists; reflexivity.
Qed.

Lemma Loader_main_frame f w :
  wp (Loader.main f) w
     (fun _ w' r =>
        env w' = env w /\ buckets w' = buckets w
        /\ (files w' = files w
            \/ exists d, files w' = <[Loader.FilePath f := Regular d]> (files w))
        /\ (objects w' = objects w
            \/ exists x,
                objects w' =
                <[(Loader.BucketName f, Loader.ObjectPath f) := x]> (objects w))
        /\ (gostrings.EqualFold (Loader.ActionType f) Loader.Upload = true ->
            files w' = files w)
        /\ (gostrings.EqualFold (Loader.ActionType f) Loader.Upload = false ->
            objects w' = objects w)).
Proof.
  apply Loader_main_cases.
  1, 2: intros; repeat split; auto.
  intros _ _. destruct (clientErr (env w) (Loader.optionOf f)).
  { repeat split; auto. }
  unfold Loader.dispatch.
  destruct (gostrings.EqualFold (Loader.ActionType f) Loader.Upload) eqn:Hu;
    [|destruct (gostrings.EqualFold (Loader.ActionType f) Loader.Download)].
  - eapply wp_mono; [apply Loader_uploadFile_frame|].
    intros t w' r (He & Hb & Hf & Ho).
    destruct r as [[]|c]; repeat split; auto; discriminate.
  - eapply wp_mono; [apply Loader_downloadFile_frame|].
    intros t w' r (He & Hb & Ho & Hf).
    destruct r as [[]|c]; repeat split; auto; discriminate.
  - wp_run. repeat split; auto; discriminate.
Qed.

(** X9.  A run changes nothing but its targets: the environment and
    the set of buckets stay as they are, every local path other than
    [-file] keeps its content, and every object other than the one
    named by [-bucket] and [-object] stays as it is.  The upload-only
    program changes no local file at all. *)
Theorem run_changes_only_its_targets :
  (forall (f : Loader.AppFlagStruct) w,
      env (final (Loader.main f w)) = env w
      /\ buckets (final (Loader.main f w)) = buckets w
      /\ (forall p, p <> Loader.FilePath f ->
                    files (final (Loader.main f w)) !! p = files w !! p)
      /\ (forall k, k <> (Loader.BucketName f, Loader.ObjectPath f) ->
                    objects (final (Loader.main f w)) !! k = objects w !! k))
  /\
  (forall (f : Uploader.AppFlagStruct) w,
      env (final (Uploader.main f w)) = env w
      /\ buckets (final (Uploader.main f w)) = buckets w
      /\ files (final (Uploader.main f w)) = files w
      /\ (forall k, k <> (Uploader.BucketName f, Uploader.ObjectPath f) ->
                    objects (final (Uploader.main f w)) !! k = objects w !! k)).
Proof.
  split; intros f w.
  - destruct (Loader_main_frame f w) as (He & Hb & Hf & Ho & _).
    repeat split; auto.
    + intros p Hp. destruct Hf as [->|[d ->]]; [reflexivity|].
      apply lookup_insert_ne. congruence.
    + intros k Hk. destruct Ho as [->|[x ->]]; [reflexivity|].
      apply lookup_insert_ne. congruence.
  - destruct (Uploader_main_frame f w) as (He & Hb & Hf & Ho).
    repeat split; auto.
    intros k Hk. destruct Ho as [->|[x ->]]; [reflexivity|].
    apply lookup_insert_ne. congruence.
Qed.

Lemma run_changes_only_its_targets_witness :
  files (final (Loader.main
                  (loaderFlags "download" "out.txt" "k.json" false false)
                  smallWorld)) !! "a.txt"
  = files smallWorld !! "a.txt".
Proof.
  destruct (proj1 run_changes_only_its_targets
              (loaderFlags "download" "out.txt" "k.json" false false)
              smallWorld) as (_ & _ & Hf & _).
  apply Hf. discriminate.
Defined.

(** X10.  In the dual-direction program a run whose action folds to
    "upload" leaves every local file as it is, and every other run
    (download, wrong action, failed validation) leaves every object as
    it is. *)
Theorem upload_keeps_files_and_download_keeps_objects
    (f : Loader.AppFlagStruct) w :
  (gostrings.EqualFold (Loader.ActionType f) Loader.Upload = true ->
   files (final (Loader.main f w)) = files w)
  /\ (gostrings.EqualFold (Loader.ActionType f) Loader.Upload = false ->
      objects (final (Loader.main f w)) = objects w).
Proof.
  destruct (Loader_main_frame f w) as (_ & _ & _ & _ & Hu & Hd).
  split; [exact Hu | exact Hd].
Qed.

Lemma upload_keeps_files_and_download_keeps_objects_witness :
  files (final (Loader.main (loaderFlags "upload" "a.txt" "k.json" true false)
                            smallWorld)) = files smallWorld
  /\ objects (final (Loader.main
                       (loaderFlags "download" "out.txt" "k.json" true false)
                       storedWorld)) = objects storedWorld.
Proof.
  split.
  - apply (proj1 (upload_keeps_files_and_download_keeps_objects
                    (loaderFlags "upload" "a.txt" "k.json" true false)
                    smallWorld)).
    reflexivity.
  - apply (proj2 (upload_keeps_files_and_download_keeps_objects
                    (loaderFlags "download" "out.txt" "k.json" true false)
                    storedWorld)).
    reflexivity.
Defined.

(** ** The report of an upload with extra checks *)

Lemma Loader_upload_reports_attrs f w data :
  gostrings.EqualFold (Loader.ActionType f) Loader.Upload = true ->
  Loader.ExtraChecks f = true ->
  files w !! Loader.FilePath f = Some (Regular data) ->
  result (Loader.main f w) = Ret tt ->
  ELog LogInfo
    ("SUCCESS: Object uploaded to GCP Bucket. (Uploaded Object's "
     +:+ Loader.attrsText
           (objAttrs (uploaded (env w) (Loader.ContentType f) data)))
  ∈ trace (Loader.main f w).
Proof.
  intros Hu He Hf.
  destruct (Loader.mandatoryFilled f) eqn:Hm;
    [|rewrite (Loader_missing_mandatory f w Hm); discriminate].
  destruct (Loader.credentialGiven f) eqn:Hc;
    [|rewrite (Loader_missing_credential f w Hm Hc); discriminate].
  set (report := ELog LogInfo _).
  change (wp (Loader.main f) w (fun t _ r => r = Ret tt -> report ∈ t)).
  apply Loader_main_session; [exact Hm | exact Hc |].
  destruct (clientErr (env w) (Loader.optionOf f)); [discriminate|].
  unfold Loader.dispatch. rewrite Hu.
  wp_run.
  all: try discriminate.
  all: committed.
  all: intros _; subst report; cbn [uploaded objAttrs]; rewrite ?Hf;
    find_event.
Qed.

Lemma Uploader_upload_reports_attrs f w data :
  Uploader.ExtraChecks f = true ->
  files w !! Uploader.FilePath f = Some (Regular data) ->
  result (Uploader.main f w) = Ret tt ->
  ELog LogInfo
    ("SUCCESS: Object uploaded to GCP Bucket. (Uploaded Object's "
     +:+ Uploader.attrsText
           (objAttrs (uploaded (env w) (Uploader.ContentType f) data)))
  ∈ trace (Uploader.main f w).
Proof.
  intros He Hf.
  set (report := ELog LogInfo _).
  change (wp (Uploader.main f) w (fun t _ r => r = Ret tt -> report ∈ t)).
  wp_run.
  all: try discriminate.
  all: committed.
  all: intros _; subst report; cbn [uploaded objAttrs]; rewrite ?Hf;
    find_event.
Qed.

(** X12.  When an upload with extra checks on returns, the success
    line reports the attributes fetched after the upload: as size the
    number of bytes of the local file, together with the checksum and
    generation the provider gave the new object (both programs). *)
Theorem checked_upload_reports_new_attributes :
  (forall (f : Loader.AppFlagStruct) w data,
      gostrings.EqualFold (Loader.ActionType f) Loader.Upload = true ->
      Loader.ExtraChecks f = true ->
      files w !! Loader.FilePath f = Some (Regular data) ->
      result (Loader.main f w) = Ret tt ->
      ELog LogInfo
        ("SUCCESS: Object uploaded to GCP Bucket. (Uploaded Object's SIZE: "
         +:+ FormatInt (Z.of_nat (length data))
         +:+ ", CRC32: " +:+ FormatInt (crc32c (env w) data)
         +:+ ", GENERATION: " +:+ FormatInt (nextGeneration (env w)) +:+ ")")
      ∈ trace (Loader.main f w))
  /\
  (forall (f : Uploader.AppFlagStruct) w data,
      Uploader.ExtraChecks f = true ->
      files w !! Uploader.FilePath f = Some (Regular data) ->
      result (Uploader.main f w) = Ret tt ->
      ELog LogInfo
        ("SUCCESS: Object uploaded to GCP Bucket. (Uploaded Object's SIZE: "
         +:+ FormatInt (Z.of_nat (length data))
         +:+ ", CRC32: " +:+ FormatInt (crc32c (env w) data)
         +:+ ", GENERATION: " +:+ FormatInt (nextGeneration (env w)) +:+ ")")
      ∈ trace (Uploader.main f w)).
Proof.
  split.
  - intros f w data Hu He Hf Hr.
    pose proof (Loader_upload_reports_attrs f w data Hu He Hf Hr) as H.
    unfold Loader.attrsText, uploaded in H. cbn [objAttrs Size CRC32C Generation] in H.
    exact H.
  - intros f w data He Hf Hr.
    pose proof (Uploader_upload_reports_attrs f w data He Hf Hr) as H.
    unfold Uploader.attrsText, uploaded in H.
    cbn [objAttrs Size CRC32C Generation] in H. exact H.
Qed.

Lemma checked_upload_reports_new_attributes_witness :
  ELog LogInfo
    "SUCCESS: Object uploaded to GCP Bucket. (Uploaded Object's SIZE: 2, CRC32: 0, GENERATION: 1)"
  ∈ trace (Loader.main (loaderFlags "upload" "a.txt" "k.json" true false)
                       smallWorld)
  /\ ELog LogInfo
       "SUCCESS: Object uploaded to GCP Bucket. (Uploaded Object's SIZE: 2, CRC32: 0, GENERATION: 1)"
     ∈ trace (Uploader.main (uploaderFlags "a.txt" "k.json" true) smallWorld).
Proof.
  destruct checked_upload_reports_new_attributes as [HL HU].
  split.
  - apply (HL (loaderFlags "upload" "a.txt" "k.json" true false) smallWorld
              [104; 105]); reflexivity.
  - apply (HU (uploaderFlags "a.txt" "k.json" true) smallWorld [104; 105]);
      reflexivity.
Defined.

(** ** The order of the releases *)

(** Splitting off the last five events of an explicit trace. *)
Ltac last_five :=
  lazymatch goal with
  | |- releasedInOrder _ ?t =>
    let p := eval cbn in (reverse (drop 5 (reverse t))) in
    exists p
  end;
  do 2 eexists;
  split; [reflexivity|];
  split; [first [left; reflexivity | right; reflexivity] | find_event].

Lemma dispatch_releases_in_order f ctx client w :
  wp (Loader.dispatch f {| Loader.ctx := ctx; Loader.cancel := emit ECancel;
                           Loader.client := client |}) w
     (fun t _ r => r = Ret tt -> releasedInOrder (Loader.FilePath f) t).
Proof.
  unfold Loader.dispatch.
  destruct (gostrings.EqualFold _ Loader.Upload);
    [|destruct (gostrings.EqualFold _ Loader.Download)].
  all: wp_run.
  all: try discriminate.
  all: intros _; cbn [app]; last_five.
Qed.

Lemma releasedInOrder_middle path (t1 t2 : list event) e :
  releasedInOrder path t2 ->
  exists pre, t1 ++ t2 ++ [e] = pre ++ [e] /\ releasedInOrder path pre.
Proof.
  intros (pre & msg & x & -> & Hx & Hin).
  exists (t1 ++ pre ++ [ELog LogInfo msg; x; EFileClose path; EClientClose; ECancel]).
  split; [rewrite <- !app_assoc; reflexivity|].
  exists (t1 ++ pre), msg, x. rewrite <- app_assoc.
  split; [reflexivity|]. split; [exact Hx|].
  apply elem_of_app. right. exact Hin.
Qed.

(** X13.  When [main] returns, the trace ends with the success line,
    then the deferred calls in reverse order of their [defer]
    statements (second close of the stream, local file, client,
    context), then the farewell (both programs). *)
Theorem returned_run_releases_in_reverse_order :
  (forall (f : Loader.AppFlagStruct) w,
      result (Loader.main f w) = Ret tt ->
      exists pre bye,
        trace (Loader.main f w) = pre ++ [ELog LogAlways bye]
        /\ releasedInOrder (Loader.FilePath f) pre)
  /\
  (forall (f : Uploader.AppFlagStruct) w,
      result (Uploader.main f w) = Ret tt ->
      exists pre bye,
        trace (Uploader.main f w) = pre ++ [ELog LogAlways bye]
        /\ releasedInOrder (Uploader.FilePath f) pre).
Proof.
  split; intros f w.
  - change (wp (Loader.main f) w
              (fun t _ r =>
                 r = Ret tt ->
                 exists pre bye,
                   t = pre ++ [ELog LogAlways bye]
                   /\ releasedInOrder (Loader.FilePath f) pre)).
    apply Loader_main_cases; try discriminate.
    intros _ _. destruct (clientErr (env w) (Loader.optionOf f));
      [discriminate|].
    eapply wp_mono; [apply dispatch_releases_in_order|].
    intros t w' [[]|c] H; [|discriminate]. intros _.
    destruct (releasedInOrder_middle (Loader.FilePath f) (Loader.sessionTrace f) t
                (ELog LogAlways ("BYE MSG: All done in "
                                 +:+ elapsed (env w') +:+ "s, bye!"))
                (H eq_refl)) as (pre & Heq & Hpre).
    exists pre. eexists. split; [exact Heq | exact Hpre].
  - change (wp (Uploader.main f) w
              (fun t _ r =>
                 r = Ret tt ->
                 exists pre bye,
                   t = pre ++ [ELog LogAlways bye]
                   /\ releasedInOrder (Uploader.FilePath f) pre)).
    wp_run.
    all: try discriminate.
    all: intros _; cbn [app].
    all: lazymatch goal with
         | |- exists pre, exists bye, ?t = _ /\ _ =>
           let p := eval cbn in (reverse (drop 1 (reverse t))) in
           exists p
         end; eexists; split; [reflexivity|]; last_five.
Qed.

Lemma returned_run_releases_in_reverse_order_witness :
  exists pre bye,
    trace (Loader.main (loaderFlags "download" "out.txt" "k.json" true false)
                       storedWorld) = pre ++ [ELog LogAlways bye]
    /\ releasedInOrder "out.txt" pre.
Proof.
  apply (proj1 returned_run_releases_in_reverse_order
           (loaderFlags "download" "out.txt" "k.json" true false) storedWorld).
  reflexivity.
Defined.

(** ** One session per run, and its deadline *)

Lemma count_app p (t1 t2 : list event) :
  count p (t1 ++ t2) = (count p t1 + count p t2)%nat.
Proof. unfold count. rewrite filter_app, length_app. reflexivity. Qed.

Lemma count_none p (t : list event) :
  Forall (fun e => p e = false) t -> count p t = 0%nat.
Proof.
  unfold count. induction 1 as [|e t He Ht IH]; [reflexivity|].
  rewrite filter_cons. destruct (decide (p e = true)); [congruence | exact IH].
Qed.

Lemma sessionTrace_count f :
  count isWithTimeout (Loader.sessionTrace f) = 1%nat
  /\ count isNewClient (Loader.sessionTrace f) = 1%nat.
Proof.
  unfold Loader.sessionTrace.
  destruct (Loader.PublicRequest f && negb (Loader.KeyPath f =? "")%string);
    split; reflexivity.
Qed.

Lemma no_session_counts t :
  Forall (fun e => isSession e = false) t ->
  count isWithTimeout t = 0%nat /\ count isNewClient t = 0%nat.
Proof.
  intros H. split; apply count_none; (eapply Forall_impl; [exact H|]);
    intros e He; apply orb_false_iff in He; tauto.
Qed.

(** X14.  When the validation of the flags passes, a run calls
    [context.WithTimeout] exactly once and [storage.NewClient] exactly
    once, whether or not the client can then be built; when the
    validation fails it calls neither (both programs). *)
Theorem one_context_and_one_client_call_per_run :
  (forall (f : Loader.AppFlagStruct) w,
      count isWithTimeout (trace (Loader.main f w)) =
      (if Loader.mandatoryFilled f && Loader.credentialGiven f
       then 1%nat else 0%nat)
      /\ count isNewClient (trace (Loader.main f w)) =
         (if Loader.mandatoryFilled f && Loader.credentialGiven f
          then 1%nat else 0%nat))
  /\ (forall (f : Uploader.AppFlagStruct) w,
         count isWithTimeout (trace (Uploader.main f w)) =
         (if Uploader.mandatoryFilled f then 1%nat else 0%nat)
         /\ count isNewClient (trace (Uploader.main f w)) =
            (if Uploader.mandatoryFilled f then 1%nat else 0%nat)).
Proof.
  split; intros f w.
  - change (wp (Loader.main f) w
              (fun t _ _ =>
                 count isWithTimeout t =
                 (if Loader.mandatoryFilled f && Loader.credentialGiven f
                  then 1%nat else 0%nat)
                 /\ count isNewClient t =
                    (if Loader.mandatoryFilled f && Loader.credentialGiven f
                     then 1%nat else 0%nat))).
    destruct (sessionTrace_count f) as [Hs1 Hs2].
    apply Loader_main_cases.
    + intros ->. split; reflexivity.
    + intros -> ->. split; reflexivity.
    + intros -> ->. cbn [andb].
      destruct (clientErr (env w) (Loader.optionOf f)).
      * rewrite !count_app, Hs1, Hs2. split; reflexivity.
      * eapply wp_mono; [apply dispatch_creates_no_session|].
        intros t w' r Ht. apply no_session_counts in Ht as [Ht1 Ht2].
        destruct r; rewrite !count_app, Hs1, Hs2, Ht1, Ht2; split; reflexivity.
  - unfold Uploader.mandatoryFilled.
    change (wp (Uploader.main f) w
              (fun t _ _ =>
                 count isWithTimeout t =
                 (if negb ((Uploader.FilePath f =? "")%string
                           || (Uploader.BucketName f =? "")%string
                           || (Uploader.ObjectPath f =? "")%string
                           || (Uploader.KeyPath f =? "")%string)
                  then 1%nat else 0%nat)
                 /\ count isNewClient t =
                    (if negb ((Uploader.FilePath f =? "")%string
                              || (Uploader.BucketName f =? "")%string
                              || (Uploader.ObjectPath f =? "")%string
                              || (Uploader.KeyPath f =? "")%string)
                     then 1%nat else 0%nat))).
    wp_run.
    all: split; reflexivity.
Qed.

Lemma deadlineOf_spec t :
  0 <= t < 2 ^ 64 -> t <= 9223372036 \/ 2 ^ 63 <= t ->
  Loader.timeoutDuration (wrap64 t) = deadlineOf t.
Proof.
  intros Ht Hr. unfold deadlineOf.
  destruct (Z.eqb_spec t 0) as [->|H0]; [reflexivity|].
  destruct (Z.leb_spec (2 ^ 63) t) as [Hbig|Hsmall]; cbn [orb].
  - apply timeoutDuration_of_large_uint. lia.
  - rewrite wrap64_small by lia. apply timeoutDuration_seconds. lia.
Qed.

Lemma Loader_main_starts_with_session f w :
  Loader.mandatoryFilled f = true -> Loader.credentialGiven f = true ->
  exists rest, trace (Loader.main f w) = Loader.sessionTrace f ++ rest.
Proof.
  intros Hm Hc.
  change (wp (Loader.main f) w
            (fun t _ _ => exists rest, t = Loader.sessionTrace f ++ rest)).
  apply Loader_main_session; [exact Hm | exact Hc |].
  destruct (clientErr (env w) (Loader.optionOf f)); [eexists; reflexivity|].
  apply wp_any. intros t w' []; eexists; reflexivity.
Qed.

(** X15.  For a [-timeout] of [t] seconds, once the checks pass: the
    context gets the deadline of 60 seconds when [t] is 0 or at least
    2^63 (which [int(t)] turns into a negative number), and of [t]
    seconds when [0 < t <= 9223372036]. *)
Theorem deadline_of_the_timeout_flag (f : Loader.AppFlagStruct) w :
  Loader.mandatoryFilled f = true ->
  Loader.credentialGiven f = true ->
  0 <= Loader.TimeoutValue f < 2 ^ 64 ->
  Loader.TimeoutValue f <= 9223372036 \/ 2 ^ 63 <= Loader.TimeoutValue f ->
  EWithTimeout (deadlineOf (Loader.TimeoutValue f)) ∈ trace (Loader.main f w).
Proof.
  intros Hm Hc Ht Hr.
  destruct (Loader_main_starts_with_session f w Hm Hc) as [rest ->].
  rewrite <- deadlineOf_spec by assumption.
  apply elem_of_app. left. unfold Loader.sessionTrace.
  apply elem_of_app. right. apply elem_of_app. right.
  apply list_elem_of_here.
Qed.

Lemma deadline_of_the_timeout_flag_witness :
  EWithTimeout 90000000000 ∈ trace (Loader.main (timeoutFlags 90) smallWorld)
  /\ EWithTimeout 60000000000
     ∈ trace (Loader.main (timeoutFlags 18446744073709551615) smallWorld).
Proof.
  split.
  - apply (deadline_of_the_timeout_flag (timeoutFlags 90) smallWorld
             eq_refl eq_refl); cbn; lia.
  - apply (deadline_of_the_timeout_flag
             (timeoutFlags 18446744073709551615) smallWorld
             eq_refl eq_refl); cbn; lia.
Defined.

(** ** The local file of a download *)

(** X16.  A download first looks at the local path: on a regular file
    it warns with the size of the file, on anything else that exists it
    warns that the path is no regular file, on a free path it warns
    about nothing; in each case it then creates the file. *)
Theorem download_warns_about_the_existing_path f sud path b o w :
  (forall data,
      files w !! path = Some (Regular data) ->
      exists post,
        trace (Loader.downloadFile f sud path b o w) =
        [EStat path;
         ELog LogWarn
           ("WARNING: File exists, going to override it! (Existing File's SIZE: "
            +:+ FormatInt (Z.of_nat (length data)) +:+ ")");
         ECreate path] ++ post)
  /\ (files w !! path = Some Irregular ->
      exists post,
        trace (Loader.downloadFile f sud path b o w) =
        [EStat path;
         ELog LogWarn "WARNING: Path exists but not a regular file!";
         ECreate path] ++ post)
  /\ (files w !! path = None ->
      exists post,
        trace (Loader.downloadFile f sud path b o w) =
        [EStat path; ECreate path] ++ post).
Proof.
  split; [|split].
  - intros data Hf.
    change (wp (Loader.downloadFile f sud path b o) w
              (fun t _ _ =>
                 exists post,
                   t = [EStat path;
                        ELog LogWarn
                          ("WARNING: File exists, going to override it! (Existing File's SIZE: "
                           +:+ FormatInt (Z.of_nat (length data)) +:+ ")");
                        ECreate path] ++ post)).
    wp_run.
    all: try (apply wp_any; intros).
    all: cbn [app os.IsRegular os.fileSize]; eexists; reflexivity.
  - intros Hf.
    change (wp (Loader.downloadFile f sud path b o) w
              (fun t _ _ =>
                 exists post,
                   t = [EStat path;
                        ELog LogWarn "WARNING: Path exists but not a regular file!";
                        ECreate path] ++ post)).
    wp_run.
    all: try (apply wp_any; intros).
    all: cbn [app]; eexists; reflexivity.
  - intros Hf.
    change (wp (Loader.downloadFile f sud path b o) w
              (fun t _ _ => exists post, t = [EStat path; ECreate path] ++ post)).
    wp_run.
    all: try (apply wp_any; intros).
    all: cbn [app]; eexists; reflexivity.
Qed.

Lemma download_warns_about_the_existing_path_witness :
  exists post,
    trace (Loader.downloadFile
             (loaderFlags "download" "out.txt" "k.json" false false)
             someSession "out.txt" "b" "o" storedWorld) =
    [EStat "out.txt";
     ELog LogWarn
       "WARNING: File exists, going to override it! (Existing File's SIZE: 5)";
     ECreate "out.txt"] ++ post.
Proof.
  apply (proj1 (download_warns_about_the_existing_path
                  (loaderFlags "download" "out.txt" "k.json" false false)
                  someSession "out.txt" "b" "o" storedWorld)
           [1; 2; 3; 4; 5]).
  reflexivity.
Defined.

(** X17.  Once a download has created its local file, that file never
    holds any of its old bytes again, however the run ends: it holds a
    prefix of the bytes of the object, and nothing at all when the
    object does not exist. *)
Theorem download_never_keeps_old_bytes f ctx client path b o w :
  createErr (env w) path = None ->
  files w !! path <> Some Irregular ->
  exists d,
    files (final (Loader.downloadFile f
                    {| Loader.ctx := ctx; Loader.cancel := emit ECancel;
                       Loader.client := client |} path b o w)) !! path
    = Some (Regular d)
    /\ match objects w !! (b, o) with
       | Some obj => d `prefix_of` objData obj
       | None => d = []
       end.
Proof.
  intros Hc Hf.
  change (wp (Loader.downloadFile f
                {| Loader.ctx := ctx; Loader.cancel := emit ECancel;
                   Loader.client := client |} path b o) w
            (fun _ w' _ =>
               exists d,
                 files w' !! path = Some (Regular d)
                 /\ match objects w !! (b, o) with
                    | Some obj => d `prefix_of` objData obj
                    | None => d = []
                    end)).
  wp_run.
  all: created.
  all: cbn [files setFiles]; rewrite ?insert_insert_eq, lookup_insert_eq;
    eexists; (split; [reflexivity|]).
  all: repeat match goal with
              | H : objects _ !! _ = _ |- _ => rewrite H
              end.
  all: rewrite ?drop_nil, ?app_nil_r.
  all: try reflexivity.
  all: try apply prefix_nil.
  all: try apply prefix_take.
  all: try (destruct (objects w !! (b, o)); [apply prefix_nil | reflexivity]).
Qed.

Lemma download_never_keeps_old_bytes_witness :
  exists d,
    files (final (Loader.downloadFile
                    (loaderFlags "download" "out.txt" "k.json" false false)
                    someSession "out.txt" "b" "o" storedWorld)) !! "out.txt"
    = Some (Regular d)
    /\ match objects storedWorld !! ("b", "o") with
       | Some obj => d `prefix_of` objData obj
       | None => d = []
       end.
Proof.
  assert (Hf : files storedWorld !! "out.txt" <> Some Irregular)
    by (vm_compute; discriminate).
  apply (download_never_keeps_old_bytes
           (loaderFlags "download" "out.txt" "k.json" false false)
           60000000000 (WithCredentialsFile "k.json") "out.txt" "b" "o"
           storedWorld eq_refl Hf).
Defined.

(** ** A missing bucket *)

(** X18.  With extra checks on, a bucket that does not exist ends an
    upload and a download alike with "Bucket does not exist!" and
    status 1, and any other failure of the bucket fetch ends both with
    "Cannot fetch bucket info!"; the upload has then opened no writer
    and changed nothing. *)
Theorem missing_bucket_is_fatal_for_both f sud file b o ct w :
  Loader.ExtraChecks f = true ->
  (forall n,
      files w !! file = Some n -> openErr (env w) file = None ->
      (bucketAttrsErr (env w) = None -> b ∉ buckets w ->
       Loader.uploadFile f sud file b o ct w =
       ([EOpen file; EBucketAttrs b;
         ELog LogErr "FATAL ERROR: Bucket does not exist!"], w, Exit 1))
      /\ (forall msg,
             bucketAttrsErr (env w) = Some msg ->
             Loader.uploadFile f sud file b o ct w =
             ([EOpen file; EBucketAttrs b;
               ELog LogErr ("FATAL ERROR: Cannot fetch bucket info! ("
                            +:+ msg +:+ ")")], w, Exit 1)))
  /\
  (createErr (env w) file = None ->
   (bucketAttrsErr (env w) = None -> b ∉ buckets w ->
    result (Loader.downloadFile f sud file b o w) = Exit 1
    /\ exists pre,
        trace (Loader.downloadFile f sud file b o w) =
        pre ++ [ECreate file; EBucketAttrs b;
                ELog LogErr "FATAL ERROR: Bucket does not exist!"])
   /\ (forall msg,
          bucketAttrsErr (env w) = Some msg ->
          result (Loader.downloadFile f sud file b o w) = Exit 1
          /\ exists pre,
              trace (Loader.downloadFile f sud file b o w) =
              pre ++ [ECreate file; EBucketAttrs b;
                      ELog LogErr ("FATAL ERROR: Cannot fetch bucket info! ("
                                   +:+ msg +:+ ")")])).
Proof.
  intros He. split.
  - intros n Hf Hop. split.
    + intros Hb Hn. apply wp_eq. wp_run. reflexivity.
    + intros msg Hb. apply wp_eq. wp_run. reflexivity.
  - intros Hc. split.
    + intros Hb Hn.
      change (wp (Loader.downloadFile f sud file b o) w
                (fun t _ r =>
                   r = Exit 1
                   /\ exists pre,
                       t = pre ++ [ECreate file; EBucketAttrs b;
                                   ELog LogErr "FATAL ERROR: Bucket does not exist!"])).
      wp_run.
      all: split; [reflexivity|]; cbn [app].
      all: first [ (eexists [_]; reflexivity)
                 | (eexists [_; _]; reflexivity) ].
    + intros msg Hb.
      change (wp (Loader.downloadFile f sud file b o) w
                (fun t _ r =>
                   r = Exit 1
                   /\ exists pre,
                       t = pre ++ [ECreate file; EBucketAttrs b;
                                   ELog LogErr
                                     ("FATAL ERROR: Cannot fetch bucket info! ("
                                      +:+ msg +:+ ")")])).
      wp_run.
      all: split; [reflexivity|]; cbn [app Error].
      all: first [ (eexists [_]; reflexivity)
                 | (eexists [_; _]; reflexivity) ].
Qed.

Lemma missing_bucket_is_fatal_for_both_witness :
  Loader.uploadFile (loaderFlags "upload" "a.txt" "k.json" true false)
    someSession "a.txt" "nope" "o" "text/plain" smallWorld =
  ([EOpen "a.txt"; EBucketAttrs "nope";
    ELog LogErr "FATAL ERROR: Bucket does not exist!"], smallWorld, Exit 1)
  /\ result (Loader.downloadFile
               (loaderFlags "download" "out.txt" "k.json" true false)
               someSession "out.txt" "nope" "o" smallWorld) = Exit 1.
Proof.
  assert (Hn : "nope" ∉ buckets smallWorld)
    by (cbn [buckets smallWorld]; set_solver).
  split.
  - destruct (missing_bucket_is_fatal_for_both
                (loaderFlags "upload" "a.txt" "k.json" true false)
                someSession "a.txt" "nope" "o" "text/plain" smallWorld
                eq_refl) as [Hup _].
    destruct (Hup (Regular [104; 105]) eq_refl eq_refl) as [Hmiss _].
    exact (Hmiss eq_refl Hn).
  - destruct (missing_bucket_is_fatal_for_both
                (loaderFlags "download" "out.txt" "k.json" true false)
                someSession "out.txt" "nope" "o" "" smallWorld
                eq_refl) as [_ Hdown].
    destruct (Hdown eq_refl) as [Hmiss _].
    exact (proj1 (Hmiss eq_refl Hn)).
Defined.
